(** * SymbolLedger (hw-app-symbol.js): APDU framing and chunked transfer

    A shallow embedding of [src/app/modules/ledger/hw-app-symbol.js].

    - JavaScript numbers that the driver manipulates are small integers
      (sizes, offsets, byte values): they are modelled as [Z].
    - A [Buffer] is the list of its bytes; every in-place write of the
      source becomes a function returning the updated buffer, and the
      range checks of the Buffer API are written out as thrown errors.
    - A JavaScript string is the list of its UTF-16 code units.
    - [async] methods run in a small state monad over the transport: the
      state holds the device and the log of every exchange carried out.
    - The [while] loop that builds the chunk plan takes fuel; running out of
      fuel is an outcome of its own, distinct from a thrown error. *)

From Stdlib Require Import String Ascii ZArith List Lia Bool.
Import ListNotations.
Local Open Scope Z_scope.

(** ** Completions: normal values, thrown errors, exhausted fuel *)

Module Js.

Inductive error : Type :=
| RangeError                      (* thrown by the Buffer API *)
| TypeError                       (* property access on undefined *)
| PathError                       (* thrown by BIPPath.fromString *)
| TransportError (code : Z)       (* thrown by transport.send *)
| StatusCode (statusCode : Z).    (* throw { statusCode: ... } *)

Inductive completion (A : Type) : Type :=
| Normal (a : A)
| Throw (e : error)
| OutOfFuel.

Arguments Normal {A} a.
Arguments Throw {A} e.
Arguments OutOfFuel {A}.

Definition bind {A B} (m : completion A) (k : A -> completion B)
  : completion B :=
  match m with
  | Normal a => k a
  | Throw e => Throw e
  | OutOfFuel => OutOfFuel
  end.

(** A string is its sequence of UTF-16 code units. *)
Definition str : Type := list Z.

Definition lit (s : string) : str :=
  map (fun c => Z.of_nat (nat_of_ascii c)) (list_ascii_of_string s).

Fixpoint str_eqb (a b : str) : bool :=
  match a, b with
  | [], [] => true
  | x :: a', y :: b' => (x =? y) && str_eqb a' b'
  | _, _ => false
  end.

(** [s.slice(from, to)] and [s.slice(from)] for non-negative indices. *)
Definition slice (s : str) (from to : Z) : str :=
  firstn (Z.to_nat to - Z.to_nat from) (skipn (Z.to_nat from) s).

Definition slice_from (s : str) (from : Z) : str :=
  skipn (Z.to_nat from) s.

End Js.

Import Js.

Notation "'let*' x ':=' m 'in' k" := (Js.bind m (fun x => k))
  (at level 10, x pattern, m at level 100, k at level 200).

Definition len {A} (l : list A) : Z := Z.of_nat (length l).

(** ** The Buffer API used by the driver *)

Module Buffer.

Definition t : Type := list Z.

(** [Buffer.alloc(size)]: [size] zero bytes; a negative size throws. *)
Definition alloc (size : Z) : completion t :=
  if size <? 0 then Throw RangeError
  else Normal (repeat 0 (Z.to_nat size)).

(** Overwrite [length bytes] cells of [buf] starting at [offset]. *)
Definition store (buf : t) (offset : Z) (bytes : list Z) : t :=
  firstn (Z.to_nat offset) buf ++ bytes
    ++ skipn (Z.to_nat offset + length bytes) buf.

Definition checked_store (buf : t) (offset : Z) (bytes : list Z)
  : completion t :=
  if (offset <? 0) || (len buf <? offset + len bytes)
  then Throw RangeError
  else Normal (store buf offset bytes).

(** [buf.writeInt8(value, offset)] *)
Definition writeInt8 (buf : t) (value offset : Z) : completion t :=
  if (value <? -128) || (127 <? value) then Throw RangeError
  else checked_store buf offset [value mod 256].

(** [buf.writeUInt8(value, offset)] *)
Definition writeUInt8 (buf : t) (value offset : Z) : completion t :=
  if (value <? 0) || (255 <? value) then Throw RangeError
  else checked_store buf offset [value].

(** The four bytes of an unsigned 32-bit integer, most significant first. *)
Definition be32 (value : Z) : list Z :=
  [ Z.land (Z.shiftr value 24) 0xff;
    Z.land (Z.shiftr value 16) 0xff;
    Z.land (Z.shiftr value 8) 0xff;
    Z.land value 0xff ].

(** [buf.writeUInt32BE(value, offset)] *)
Definition writeUInt32BE (buf : t) (value offset : Z) : completion t :=
  if (value <? 0) || (0xffffffff <? value) then Throw RangeError
  else checked_store buf offset (be32 value).

(** [source.copy(target, targetStart, sourceStart, sourceEnd)]; the result
    is the updated target. *)
Definition copy (source target : t) (targetStart sourceStart sourceEnd : Z)
  : completion t :=
  if (targetStart <? 0) || (sourceStart <? 0)
     || (len source <? sourceStart) || (sourceEnd <? 0)
  then Throw RangeError
  else if (len target <=? targetStart) || (sourceEnd <=? sourceStart)
  then Normal target
  else
    let avail := Z.min sourceEnd (len source) - sourceStart in
    let room := len target - targetStart in
    let nb := Z.to_nat (Z.min avail room) in
    Normal (store target targetStart
              (firstn nb (skipn (Z.to_nat sourceStart) source))).

(** [buf[i]]: [None] stands for [undefined]. *)
Definition get (buf : t) (i : Z) : option Z :=
  if i <? 0 then None else nth_error buf (Z.to_nat i).

(** [buf.slice(start, end)] for non-negative indices. *)
Definition slice (buf : t) (start stop : Z) : t :=
  firstn (Z.to_nat stop - Z.to_nat start) (skipn (Z.to_nat start) buf).

(** *** Hexadecimal encoding *)

Definition hex_digit (d : Z) : Z :=
  if d <? 10 then 48 + d else 87 + d.

(** [buf.toString('hex')]: two lower-case digits per byte. *)
Definition toString_hex (buf : t) : str :=
  flat_map (fun b => [hex_digit (b / 16); hex_digit (b mod 16)]) buf.

Definition hex_value (c : Z) : option Z :=
  if (48 <=? c) && (c <=? 57) then Some (c - 48)
  else if (97 <=? c) && (c <=? 102) then Some (c - 87)
  else if (65 <=? c) && (c <=? 70) then Some (c - 55)
  else None.

(** [Buffer.from(s, 'hex')]: pairs of digits are decoded until the first
    pair that is not hexadecimal; a trailing single character is dropped. *)
Fixpoint from_hex (s : str) : t :=
  match s with
  | hi :: lo :: rest =>
      match hex_value hi, hex_value lo with
      | Some h, Some l => (16 * h + l) :: from_hex rest
      | _, _ => []
      end
  | _ => []
  end.

(** *** UTF-8 decoding, [buf.toString()]

    One code point is decoded per step from a lead byte and its
    continuation bytes; where the bytes at the cursor are not a well-formed
    sequence, U+FFFD is emitted and the cursor advances by one byte. Code
    points above U+FFFF become a surrogate pair. *)

Definition is_cont (b : Z) : bool := Z.land b 0xC0 =? 0x80.

Definition decode2 (b0 b1 : Z) : option Z :=
  if is_cont b1 then
    let cp := Z.lor (Z.shiftl (Z.land b0 0x1F) 6) (Z.land b1 0x3F) in
    if 0x7F <? cp then Some cp else None
  else None.

Definition decode3 (b0 b1 b2 : Z) : option Z :=
  if is_cont b1 && is_cont b2 then
    let cp := Z.lor (Z.lor (Z.shiftl (Z.land b0 0xF) 12)
                           (Z.shiftl (Z.land b1 0x3F) 6))
                    (Z.land b2 0x3F) in
    if (0x7FF <? cp) && ((cp <? 0xD800) || (0xDFFF <? cp))
    then Some cp else None
  else None.

Definition decode4 (b0 b1 b2 b3 : Z) : option Z :=
  if is_cont b1 && is_cont b2 && is_cont b3 then
    let cp := Z.lor (Z.lor (Z.lor (Z.shiftl (Z.land b0 0xF) 18)
                                  (Z.shiftl (Z.land b1 0x3F) 12))
                           (Z.shiftl (Z.land b2 0x3F) 6))
                    (Z.land b3 0x3F) in
    if (0xFFFF <? cp) && (cp <? 0x110000) then Some cp else None
  else None.

Definition REPLACEMENT : Z := 0xFFFD.

Definition surrogates (cp : Z) : list Z :=
  let c := cp - 0x10000 in
  [ Z.lor (Z.land (Z.shiftr c 10) 0x3FF) 0xD800;
    Z.lor 0xDC00 (Z.land c 0x3FF) ].

Fixpoint toString (buf : t) : str :=
  match buf with
  | [] => []
  | b0 :: r0 =>
      if b0 <? 0x80 then b0 :: toString r0
      else if 0xEF <? b0 then
        match r0 with
        | b1 :: b2 :: b3 :: r3 =>
            match decode4 b0 b1 b2 b3 with
            | Some cp => surrogates cp ++ toString r3
            | None => REPLACEMENT :: toString r0
            end
        | _ => REPLACEMENT :: toString r0
        end
      else if 0xDF <? b0 then
        match r0 with
        | b1 :: b2 :: r2 =>
            match decode3 b0 b1 b2 with
            | Some cp => cp :: toString r2
            | None => REPLACEMENT :: toString r0
            end
        | _ => REPLACEMENT :: toString r0
        end
      else if 0xBF <? b0 then
        match r0 with
        | b1 :: r1 =>
            match decode2 b0 b1 with
            | Some cp => cp :: toString r1
            | None => REPLACEMENT :: toString r0
            end
        | _ => REPLACEMENT :: toString r0
        end
      else REPLACEMENT :: toString r0
  end.

End Buffer.

(** ** Command packets and the transport *)

Record Apdu : Type := mkApdu {
  cla : Z;
  ins : Z;
  p1 : Z;
  p2 : Z;
  data : Buffer.t
}.

(** What one [transport.send] call comes back with. *)
Inductive reply : Type :=
| Failure (code : Z)            (* the promise is rejected *)
| Response (bytes : Buffer.t).  (* the promise resolves to a Buffer *)

(** The object returned by [getAppVersion]; a field read past the end of the
    response is [undefined], here [None]. *)
Record Version : Type := mkVersion {
  majorVersion : option Z;
  minorVersion : option Z;
  patchVersion : option Z
}.

Record Account : Type := mkAccount { publicKey : str }.

(** The part of a symbol-sdk [Transaction] that [signTransaction] reads. *)
Record Transaction : Type := mkTransaction {
  serialize : str;
  tx_type : Z;
  tx_networkType : Z
}.

Record SignedTransaction : Type := mkSignedTransaction {
  payload : str;
  hash : str;
  signerPublicKey : str;
  signed_type : Z;
  signed_networkType : Z
}.

(** ** The chunk plan: the [while] loop of [ledgerMessageHandler] *)

Definition CLA_FIELD : Z := 0xe0.
Definition GET_VERSION_INS_FIELD : Z := 0x06.
Definition GET_ACCOUNT_INS_FIELD : Z := 0x02.
Definition TX_INS_FIELD : Z := 0x04.
Definition MAX_CHUNK_SIZE : Z := 255.
Definition CONTINUE_SENDING : str := lit "0x9000".
Definition curveMask : Z := 0x80.

(** [bipPath.forEach((segment, index) =>
       data.writeUInt32BE(segment, 1 + index * 4))], from [index] on. *)
Fixpoint write_segments (buf : Buffer.t) (segments : list Z) (index : Z)
  : completion Buffer.t :=
  match segments with
  | [] => Normal buf
  | segment :: rest =>
      let* buf' := Buffer.writeUInt32BE buf segment (1 + index * 4) in
      write_segments buf' rest (index + 1)
  end.

Definition maxChunkSize (bipPath : list Z) (offset : Z) : Z :=
  if offset =? 0 then MAX_CHUNK_SIZE - 1 - len bipPath * 4
  else MAX_CHUNK_SIZE.

Definition chunkSize (bipPath : list Z) (rawTx : Buffer.t) (offset : Z) : Z :=
  if offset + maxChunkSize bipPath offset >? len rawTx
  then len rawTx - offset
  else maxChunkSize bipPath offset.

Definition chunk_p1 (bipPath : list Z) (rawTx : Buffer.t) (offset : Z) : Z :=
  if offset =? 0
  then (if chunkSize bipPath rawTx offset <? maxChunkSize bipPath offset
        then 0x00 else 0x80)
  else (if chunkSize bipPath rawTx offset <? maxChunkSize bipPath offset
        then 0x01 else 0x81).

(** One iteration of the loop body at [offset]: the packet pushed onto
    [apduArray]. *)
Definition chunk_apdu (bipPath : list Z) (rawTx : Buffer.t) (offset : Z)
  : completion Apdu :=
  let size := chunkSize bipPath rawTx offset in
  let* fresh :=
    (if offset =? 0 then Buffer.alloc (1 + len bipPath * 4 + size)
     else Buffer.alloc size) in
  let* filled :=
    (if offset =? 0 then
       let* d1 := Buffer.writeInt8 fresh (len bipPath) 0 in
       let* d2 := write_segments d1 bipPath 0 in
       Buffer.copy rawTx d2 (1 + len bipPath * 4) offset (offset + size)
     else Buffer.copy rawTx fresh 0 offset (offset + size)) in
  Normal {| cla := CLA_FIELD;
            ins := TX_INS_FIELD;
            p1 := chunk_p1 bipPath rawTx offset;
            p2 := curveMask;
            data := filled |}.

(** [while (offset !== rawTx.length) { ...; apduArray.push(apdu);
    offset += chunkSize; }]: the plan built and the offset the loop ends at. *)
Fixpoint chunk_loop (fuel : nat) (bipPath : list Z) (rawTx : Buffer.t)
    (offset : Z) (apduArray : list Apdu) : completion (list Apdu * Z) :=
  if offset =? len rawTx then Normal (apduArray, offset)
  else
    match fuel with
    | O => OutOfFuel
    | S fuel' =>
        let* apdu := chunk_apdu bipPath rawTx offset in
        chunk_loop fuel' bipPath rawTx
          (offset + chunkSize bipPath rawTx offset) (apduArray ++ [apdu])
    end.

(** ** The driver over a transport *)

Section SymbolLedger.

(** The device behind [this.transport]: one exchange takes a packet and
    the device state to a reply and the next state. *)
Variable Device : Type.
Variable exchange : Device -> Apdu -> Device * reply.

(** [BIPPath.fromString(path).toPathArray()] of the bip32-path package;
    [None] when [fromString] throws. *)
Variable fromString : string -> option (list Z).

(** [Convert.hexToUint8] and [Transaction.createTransactionHash] of
    symbol-sdk. *)
Variable hexToUint8 : str -> completion (list Z).
Variable createTransactionHash : str -> list Z -> completion str.

Record World : Type := mkWorld {
  device : Device;
  log : list (Apdu * reply)
}.

Definition Session (A : Type) : Type := World -> completion A * World.

Definition ret {A} (a : A) : Session A := fun w => (Normal a, w).

Definition lift {A} (c : completion A) : Session A := fun w => (c, w).

Definition throw {A} (e : error) : Session A := fun w => (Throw e, w).

Definition sbind {A B} (m : Session A) (k : A -> Session B) : Session B :=
  fun w =>
    match m w with
    | (Normal a, w') => k a w'
    | (Throw e, w') => (Throw e, w')
    | (OutOfFuel, w') => (OutOfFuel, w')
    end.

Notation "'let!' x ':=' m 'in' k" := (sbind m (fun x => k))
  (at level 10, x pattern, m at level 100, k at level 200).

(** [await this.transport.send(cla, ins, p1, p2, data)] *)
Definition transport_send (apdu : Apdu) : Session Buffer.t :=
  fun w =>
    let (d, r) := exchange (device w) apdu in
    let w' := {| device := d; log := log w ++ [(apdu, r)] |} in
    match r with
    | Failure code => (Throw (TransportError code), w')
    | Response bytes => (Normal bytes, w')
    end.

Definition bipPath_of (path : string) : completion (list Z) :=
  match fromString path with
  | Some segments => Normal segments
  | None => Throw PathError
  end.

Definition getAppVersion : Session Version :=
  let! zero := lift (Buffer.alloc 1) in
  let apdu := {| cla := CLA_FIELD; ins := GET_VERSION_INS_FIELD;
                 p1 := 0x00; p2 := 0x00; data := zero |} in
  let! response := transport_send apdu in
  ret {| majorVersion := Buffer.get response 1;
         minorVersion := Buffer.get response 2;
         patchVersion := Buffer.get response 3 |}.

Definition getAccount (accountPath : string) (networkType : Z)
    (display : bool) : Session Account :=
  let! bipPath := lift (bipPath_of accountPath) in
  let! fresh := lift (Buffer.alloc (1 + len bipPath * 4 + 1)) in
  let p1_field := if display then 0x01 else 0x00 in
  let! d1 := lift (Buffer.writeInt8 fresh (len bipPath) 0) in
  let! d2 := lift (write_segments d1 bipPath 0) in
  let! d3 := lift (Buffer.writeUInt8 d2 networkType (1 + len bipPath * 4)) in
  let apdu := {| cla := CLA_FIELD; ins := GET_ACCOUNT_INS_FIELD;
                 p1 := p1_field; p2 := curveMask; data := d3 |} in
  let! response := transport_send apdu in
  match Buffer.get response 0 with
  | Some publicKeyLength =>
      if negb (publicKeyLength =? 32) then throw (StatusCode 27904)
      else ret {| publicKey :=
                    Buffer.toString_hex
                      (Buffer.slice response 1 (1 + publicKeyLength)) |}
  | None => throw (StatusCode 27904)   (* undefined !== 32 *)
  end.

(** [for (const apdu of apduArray) { response = await send(apdu); }] *)
Fixpoint send_all (apduArray : list Apdu) (response : Buffer.t)
  : Session Buffer.t :=
  match apduArray with
  | [] => ret response
  | apdu :: rest =>
      let! response' := transport_send apdu in
      send_all rest response'
  end.

(** The result is [None] where the source falls off the end of the
    function, returning [undefined]. *)
Definition ledgerMessageHandler (fuel : nat) (path : string)
    (rawTx : Buffer.t) : Session (option Buffer.t) :=
  let! bipPath := lift (bipPath_of path) in
  let! plan := lift (chunk_loop fuel bipPath rawTx 0 []) in
  let! empty := lift (Buffer.alloc 0) in
  let! response := send_all (fst plan) empty in
  if negb (str_eqb (Buffer.toString response) CONTINUE_SENDING)
  then ret (Some response)
  else ret None.

Definition signTransaction (fuel : nat) (path : string)
    (transaction : Transaction) (networkGenerationHash : str)
    (signerPublicKey : str) : Session SignedTransaction :=
  let rawPayload := serialize transaction in
  let signingBytes := networkGenerationHash ++ slice_from rawPayload 216 in
  let rawTx := Buffer.from_hex signingBytes in
  let! response := ledgerMessageHandler fuel path rawTx in
  match response with
  | None => throw TypeError
  | Some response =>
      let h := Buffer.toString_hex response in
      let signature := slice h 0 128 in
      let payload := slice rawPayload 0 16 ++ signature ++ signerPublicKey
                       ++ slice rawPayload (16 + 128 + 64) (len rawPayload) in
      let! generationHashBytes := lift (hexToUint8 networkGenerationHash) in
      let! transactionHash :=
        lift (createTransactionHash payload generationHashBytes) in
      ret {| payload := payload;
             hash := transactionHash;
             signerPublicKey := signerPublicKey;
             signed_type := tx_type transaction;
             signed_networkType := tx_networkType transaction |}
  end.

Definition run {A} (m : Session A) (d : Device) : completion A * World :=
  m {| device := d; log := [] |}.

End SymbolLedger.

Arguments mkWorld {Device} device log.
Arguments device {Device} w.
Arguments log {Device} w.
Arguments run {Device A} m d.

(** ** Closed forms used in the statements *)

Definition u32 (v : Z) : Prop := 0 <= v <= 0xffffffff.

Definition is_byte (b : Z) : Prop := 0 <= b <= 255.

(** The path header of a first chunk and of an account query:
    the segment count, then every segment as four bytes. *)
Definition path_header (bipPath : list Z) : list Z :=
  len bipPath :: flat_map Buffer.be32 bipPath.

(** The value four bytes stand for when read most significant byte first. *)
Definition be_value (bytes : list Z) : Z :=
  fold_left (fun acc b => acc * 256 + b) bytes 0.

(** The packet carrying the first slice [chunk] of the payload. *)
Definition first_apdu (bipPath : list Z) (chunk : list Z) : Apdu :=
  {| cla := 0xe0; ins := 0x04;
     p1 := if len chunk <? 255 - 1 - 4 * len bipPath then 0x00 else 0x80;
     p2 := 0x80;
     data := path_header bipPath ++ chunk |}.

(** The packet carrying a later slice [chunk] of the payload. *)
Definition next_apdu (chunk : list Z) : Apdu :=
  {| cla := 0xe0; ins := 0x04;
     p1 := if len chunk <? 255 then 0x01 else 0x81;
     p2 := 0x80;
     data := chunk |}.

Definition plan_of (bipPath : list Z) (chunks : list (list Z)) : list Apdu :=
  match chunks with
  | [] => []
  | c :: cs => first_apdu bipPath c :: map next_apdu cs
  end.

(** Every slice is as large as its budget allows: the head of [chunks] has
    [budget], every later slice has 255, and [remaining] bytes are cut. *)
Fixpoint greedy (budget remaining : Z) (chunks : list (list Z)) : Prop :=
  match chunks with
  | [] => remaining = 0
  | c :: cs =>
      len c = Z.min remaining budget /\ 0 < len c
      /\ greedy 255 (remaining - len c) cs
  end.

Fixpoint last_entry {A} (l : list A) : option A :=
  match l with
  | [] => None
  | [x] => Some x
  | _ :: rest => last_entry rest
  end.

(** What the sending loop ends with, read off the exchanges it made. *)
Definition final_outcome (entries : list (Apdu * reply)) (init : Buffer.t)
  : completion Buffer.t :=
  match last_entry entries with
  | None => Normal init
  | Some (_, Failure code) => Throw (TransportError code)
  | Some (_, Response bytes) => Normal bytes
  end.

(** The packet of an account query. *)
Definition account_apdu (bipPath : list Z) (networkType : Z) (display : bool)
  : Apdu :=
  {| cla := 0xe0; ins := 0x02;
     p1 := if display then 0x01 else 0x00;
     p2 := 0x80;
     data := path_header bipPath ++ [networkType] |}.

(** [v === n] for a value that may be [undefined]. *)
Definition option_eqb (v : option Z) (n : Z) : bool :=
  match v with
  | Some x => x =? n
  | None => false
  end.

(** The packet of a version query. *)
Definition version_apdu : Apdu :=
  {| cla := 0xe0; ins := 0x06; p1 := 0x00; p2 := 0x00; data := [0] |}.

(** The signed payload as [signTransaction] splices it, on hex digits. *)
Definition spliced (rawPayload : str) (response : Buffer.t)
    (signerPublicKey : str) : str :=
  firstn 16 rawPayload ++ firstn 128 (Buffer.toString_hex response)
    ++ signerPublicKey ++ skipn 208 rawPayload.

(** The byte-level reading of the splice: sixteen bytes of header, the
    signature, the key, then the raw transaction from byte 16 + 128 + 64. *)
Definition spliced_bytes_as_claimed (raw signature key : list Z) : list Z :=
  firstn 16 raw ++ signature ++ key ++ skipn (16 + 128 + 64) raw.

(** The loop stops on [rawTx], normally or with a thrown error. *)
Definition loop_stops (bipPath : list Z) (rawTx : Buffer.t) : Prop :=
  exists fuel, chunk_loop fuel bipPath rawTx 0 [] <> OutOfFuel.

(** ** A scripted device and sample inputs *)

(** The device answers with the replies of its script, one per exchange. *)
Definition scripted_exchange (script : list reply) (apdu : Apdu)
  : list reply * reply :=
  match script with
  | [] => ([], Failure 0x6f00)
  | r :: rest => (rest, r)
  end.

Definition sample_path : string := "m/44'/4343'/0'/0'/0'".

Definition sample_bipPath : list Z :=
  [0x8000002C; 0x800010F7; 0x80000000; 0x80000000; 0x80000000].

Definition three_segments : list Z := [0x8000002C; 0x800010F7; 0x80000000].

Definition sample_fromString (path : string) : option (list Z) :=
  if String.eqb path sample_path then Some sample_bipPath else None.

Definition sample_hexToUint8 (s : str) : completion (list Z) :=
  Normal (Buffer.from_hex s).

(** A stand-in for the hash of symbol-sdk: the examples do not read it. *)
Definition sample_createTransactionHash (payload : str) (generation : list Z)
  : completion str :=
  Normal (firstn 64 payload).

(** [n] bytes counting up from [start], wrapping at 256. *)
Definition counting (start : Z) (n : nat) : list Z :=
  map (fun i => (start + Z.of_nat i) mod 256) (seq 0 n).

(** A transaction of 250 raw bytes, serialized as hex digits. *)
Definition sample_transaction : Transaction :=
  {| serialize := Buffer.toString_hex (counting 0 250);
     tx_type := 16724;
     tx_networkType := 152 |}.

Definition sample_generationHash : str := Buffer.toString_hex (counting 100 32).

Definition sample_key : list Z := counting 200 32.

Definition sample_signature : list Z := counting 1 64.

(** A completion that is a value or the range error of the Buffer API. *)
Definition normal_or_range {A} (c : completion A) : Prop :=
  (exists a, c = Normal a) \/ c = Throw RangeError.

(** ** Facts about lists and buffers *)

Example toString_ascii :
  Buffer.toString [0x30; 0x78; 0x39; 0x30; 0x30; 0x30] = lit "0x9000".
Proof. reflexivity. Qed.

Example toString_status_word :
  Buffer.toString [0x90; 0x00] = [0xFFFD; 0].
Proof. reflexivity. Qed.

Example toString_snowman :
  Buffer.toString [0xE2; 0x98; 0x83; 0x41] = [0x2603; 0x41].
Proof. reflexivity. Qed.

Example hex_roundtrip :
  Buffer.from_hex (Buffer.toString_hex [0; 171; 255; 16]) = [0; 171; 255; 16].
Proof. reflexivity. Qed.

Lemma len_app {A} (a b : list A) : len (a ++ b) = len a + len b.
Proof. unfold len. rewrite length_app. lia. Qed.

Lemma len_nonneg {A} (l : list A) : 0 <= len l.
Proof. unfold len. lia. Qed.

Lemma len_cons {A} (x : A) (l : list A) : len (x :: l) = 1 + len l.
Proof. unfold len. simpl length. lia. Qed.

Lemma firstn_app_exact {A} (a b : list A) : firstn (length a) (a ++ b) = a.
Proof. induction a as [|x a IH]; simpl; [reflexivity | now rewrite IH]. Qed.

Lemma skipn_app_exact {A} (a b : list A) : skipn (length a) (a ++ b) = b.
Proof. induction a as [|x a IH]; simpl; auto. Qed.

Lemma length_be32 v : length (Buffer.be32 v) = 4%nat.
Proof. reflexivity. Qed.

Lemma length_flat_be32 l :
  length (flat_map Buffer.be32 l) = (4 * length l)%nat.
Proof. induction l as [|x l IH]; simpl; lia. Qed.

Lemma len_path_header l : len (path_header l) = 1 + 4 * len l.
Proof.
  unfold path_header. rewrite len_cons. unfold len.
  rewrite length_flat_be32. lia.
Qed.

Lemma store_splice (pre mid post bytes : list Z) :
  length mid = length bytes ->
  Buffer.store (pre ++ mid ++ post) (len pre) bytes = pre ++ bytes ++ post.
Proof.
  intros Hlen. unfold Buffer.store, len. rewrite Nat2Z.id.
  rewrite firstn_app_exact. f_equal. f_equal.
  rewrite <- Hlen, <- (length_app pre mid), app_assoc.
  apply skipn_app_exact.
Qed.

Lemma checked_store_splice (pre mid post bytes : list Z) :
  length mid = length bytes ->
  Buffer.checked_store (pre ++ mid ++ post) (len pre) bytes
  = Normal (pre ++ bytes ++ post).
Proof.
  intros Hlen. unfold Buffer.checked_store.
  destruct (len pre <? 0) eqn:E1; [pose proof (len_nonneg pre); lia|].
  destruct (len (pre ++ mid ++ post) <? len pre + len bytes) eqn:E2.
  - rewrite !len_app in E2. pose proof (len_nonneg post).
    unfold len in *. lia.
  - simpl. now rewrite store_splice.
Qed.

Lemma checked_store_length buf offset bytes buf' :
  Buffer.checked_store buf offset bytes = Normal buf' ->
  length buf' = length buf.
Proof.
  unfold Buffer.checked_store, Buffer.store.
  destruct ((offset <? 0) || (len buf <? offset + len bytes)) eqn:E;
    [discriminate|].
  intros H. injection H as <-.
  apply orb_false_elim in E as [E1 E2]. unfold len in *.
  rewrite !length_app, length_firstn, length_skipn. lia.
Qed.

Lemma write_segments_splice segments :
  forall pre mid post index,
    Forall u32 segments ->
    len pre = 1 + index * 4 ->
    length mid = (4 * length segments)%nat ->
    write_segments (pre ++ mid ++ post) segments index
    = Normal (pre ++ flat_map Buffer.be32 segments ++ post).
Proof.
  induction segments as [|s rest IH]; intros pre mid post index Hu Hpre Hmid.
  - destruct mid; [reflexivity | discriminate].
  - inversion Hu as [|? ? Hs Hrest]; subst.
    cbn [write_segments flat_map]. unfold Buffer.writeUInt32BE.
    unfold u32 in Hs.
    destruct ((s <? 0) || (0xffffffff <? s)) eqn:E; [lia|].
    rewrite <- Hpre.
    rewrite <- (firstn_skipn 4 mid), <- app_assoc.
    rewrite checked_store_splice
      by (rewrite length_firstn, length_be32; simpl length in Hmid; lia).
    cbn [Js.bind]. rewrite app_assoc.
    rewrite (IH (pre ++ Buffer.be32 s) (skipn 4 mid) post (index + 1)); auto.
    + now rewrite <- !app_assoc.
    + rewrite len_app. unfold len at 2. rewrite length_be32. lia.
    + rewrite length_skipn. simpl length in Hmid. lia.
Qed.

Lemma write_segments_length segments :
  forall buf index buf',
    write_segments buf segments index = Normal buf' ->
    length buf' = length buf.
Proof.
  induction segments as [|s rest IH]; intros buf index buf' H.
  - now injection H as <-.
  - cbn [write_segments] in H. unfold Buffer.writeUInt32BE in H.
    destruct ((s <? 0) || (0xffffffff <? s)); [discriminate|].
    destruct (Buffer.checked_store buf (1 + index * 4) (Buffer.be32 s))
      as [b| |] eqn:E; try discriminate.
    cbn [Js.bind] in H. apply IH in H.
    apply checked_store_length in E. congruence.
Qed.

(** Too many segments for the buffer: a write past its end throws. *)
Lemma write_segments_overflow segments :
  forall buf index,
    segments <> [] ->
    0 <= index ->
    len buf < 1 + 4 * (index + len segments) ->
    write_segments buf segments index = Throw RangeError.
Proof.
  induction segments as [|s rest IH]; intros buf index Hne Hidx Hlen;
    [congruence|].
  cbn [write_segments]. unfold Buffer.writeUInt32BE.
  destruct ((s <? 0) || (0xffffffff <? s)); [reflexivity|].
  destruct (Buffer.checked_store buf (1 + index * 4) (Buffer.be32 s))
    as [b|e|] eqn:E; cbn [Js.bind].
  - destruct rest as [|s' rest'].
    + unfold Buffer.checked_store in E. rewrite len_cons in Hlen.
      change (len (Buffer.be32 s)) with 4 in E.
      destruct ((1 + index * 4 <? 0) || (len buf <? 1 + index * 4 + 4))
        eqn:E'; [discriminate|].
      exfalso. unfold len in *. simpl length in *. lia.
    + apply IH; [discriminate | lia |].
      apply checked_store_length in E. rewrite len_cons in Hlen.
      unfold len in *. lia.
  - unfold Buffer.checked_store in E.
    destruct ((1 + index * 4 <? 0)
              || (len buf <? 1 + index * 4 + len (Buffer.be32 s)));
      congruence.
  - unfold Buffer.checked_store in E.
    destruct ((1 + index * 4 <? 0)
              || (len buf <? 1 + index * 4 + len (Buffer.be32 s)));
      congruence.
Qed.

Lemma copy_splice (source pre mid : list Z) (start stop : Z) :
  0 <= start -> start < stop -> stop <= len source ->
  len mid = stop - start ->
  Buffer.copy source (pre ++ mid) (len pre) start stop
  = Normal (pre ++ firstn (Z.to_nat (stop - start))
                     (skipn (Z.to_nat start) source)).
Proof.
  intros H0 H1 H2 Hmid. unfold Buffer.copy.
  pose proof (len_nonneg pre) as Hp.
  destruct ((len pre <? 0) || (start <? 0) || (len source <? start)
            || (stop <? 0)) eqn:E1; [lia|].
  rewrite len_app.
  destruct ((len pre + len mid <=? len pre) || (stop <=? start)) eqn:E2;
    [lia|].
  replace (Z.min (Z.min stop (len source) - start)
             (len pre + len mid - len pre)) with (stop - start) by lia.
  rewrite <- (app_nil_r mid) at 1.
  rewrite store_splice.
  - now rewrite app_nil_r.
  - rewrite length_firstn, length_skipn. unfold len in *. lia.
Qed.

(** ** The chunk plan in closed form *)

Lemma chunkSize_min bipPath rawTx offset :
  chunkSize bipPath rawTx offset
  = Z.min (len rawTx - offset) (maxChunkSize bipPath offset).
Proof.
  unfold chunkSize.
  destruct (Z.gtb_spec (offset + maxChunkSize bipPath offset) (len rawTx));
    lia.
Qed.

Lemma len_firstn_skipn (l : list Z) (a b : Z) :
  0 <= a -> 0 <= b -> a + b <= len l ->
  len (firstn (Z.to_nat b) (skipn (Z.to_nat a) l)) = b.
Proof.
  intros. unfold len in *. rewrite length_firstn, length_skipn. lia.
Qed.

Lemma chunk_apdu_first bipPath rawTx :
  len bipPath <= 63 -> Forall u32 bipPath -> 0 < len rawTx ->
  chunk_apdu bipPath rawTx 0
  = Normal (first_apdu bipPath
              (firstn (Z.to_nat (chunkSize bipPath rawTx 0)) rawTx)).
Proof.
  intros HL Hu HN. pose proof (len_nonneg bipPath) as HL0.
  assert (Hsize : chunkSize bipPath rawTx 0
                  = Z.min (len rawTx) (254 - 4 * len bipPath)).
  { rewrite chunkSize_min. unfold maxChunkSize, MAX_CHUNK_SIZE.
    cbn [Z.eqb]. lia. }
  unfold chunk_apdu. cbn [Z.eqb].
  set (size := chunkSize bipPath rawTx 0) in *.
  unfold Buffer.alloc.
  destruct (1 + len bipPath * 4 + size <? 0) eqn:E; [lia|].
  cbn [Js.bind].
  replace (Z.to_nat (1 + len bipPath * 4 + size))
    with (1 + (4 * length bipPath + Z.to_nat size))%nat by (unfold len; lia).
  rewrite !repeat_app. cbn [repeat app].
  unfold Buffer.writeInt8.
  destruct ((len bipPath <? -128) || (127 <? len bipPath)) eqn:E1; [lia|].
  rewrite (Z.mod_small (len bipPath) 256) by lia.
  change (Buffer.checked_store (0 :: repeat 0 (4 * length bipPath)
                                  ++ repeat 0 (Z.to_nat size)) 0 [len bipPath])
    with (Buffer.checked_store ([] ++ [0] ++ repeat 0 (4 * length bipPath)
                                  ++ repeat 0 (Z.to_nat size)) (len (@nil Z))
            [len bipPath]).
  rewrite checked_store_splice by reflexivity. cbn [Js.bind app].
  change (len bipPath :: repeat 0 (4 * length bipPath)
            ++ repeat 0 (Z.to_nat size))
    with ([len bipPath] ++ repeat 0 (4 * length bipPath)
            ++ repeat 0 (Z.to_nat size)).
  rewrite write_segments_splice;
    [| assumption | reflexivity | apply repeat_length].
  cbn [Js.bind]. rewrite app_assoc.
  change ([len bipPath] ++ flat_map Buffer.be32 bipPath)
    with (path_header bipPath).
  replace (1 + len bipPath * 4) with (len (path_header bipPath))
    by (rewrite len_path_header; lia).
  rewrite copy_splice; try lia.
  - cbn [Js.bind]. unfold first_apdu, chunk_p1, maxChunkSize,
      CLA_FIELD, TX_INS_FIELD, curveMask, MAX_CHUNK_SIZE. cbn [Z.eqb].
    fold size. rewrite Z.add_0_l, Z.sub_0_r. cbn [Z.to_nat skipn].
    pose proof (len_firstn_skipn rawTx 0 size) as Hc.
    cbn [Z.to_nat skipn] in Hc. rewrite Hc by lia.
    replace (255 - 1 - len bipPath * 4) with (255 - 1 - 4 * len bipPath)
      by lia.
    reflexivity.
  - unfold len. rewrite repeat_length. lia.
Qed.

Lemma chunk_apdu_next bipPath rawTx offset :
  0 < offset < len rawTx ->
  chunk_apdu bipPath rawTx offset
  = Normal (next_apdu
              (firstn (Z.to_nat (chunkSize bipPath rawTx offset))
                 (skipn (Z.to_nat offset) rawTx))).
Proof.
  intros Hoff.
  assert (Hsize : chunkSize bipPath rawTx offset
                  = Z.min (len rawTx - offset) 255).
  { rewrite chunkSize_min. unfold maxChunkSize, MAX_CHUNK_SIZE.
    destruct (Z.eqb_spec offset 0); lia. }
  unfold chunk_apdu, chunk_p1, maxChunkSize.
  destruct (Z.eqb_spec offset 0) as [?|_]; [lia|].
  set (size := chunkSize bipPath rawTx offset) in *.
  unfold Buffer.alloc. destruct (size <? 0) eqn:E; [lia|]. cbn [Js.bind].
  change (repeat 0 (Z.to_nat size)) with ([] ++ repeat 0 (Z.to_nat size)).
  change 0 with (len (@nil Z)) at 2.
  rewrite copy_splice; try lia.
  - cbn [Js.bind app]. unfold next_apdu, CLA_FIELD, TX_INS_FIELD, curveMask,
      MAX_CHUNK_SIZE.
    replace (offset + size - offset) with size by lia.
    rewrite (len_firstn_skipn rawTx offset size) by lia.
    reflexivity.
  - unfold len. rewrite repeat_length. lia.
Qed.

Lemma chunk_loop_next bipPath rawTx :
  forall fuel offset acc,
    0 < offset <= len rawTx ->
    (Z.to_nat (len rawTx - offset) <= fuel)%nat ->
    exists chunks,
      chunk_loop fuel bipPath rawTx offset acc
      = Normal (acc ++ map next_apdu chunks, len rawTx)
      /\ concat chunks = skipn (Z.to_nat offset) rawTx
      /\ greedy 255 (len rawTx - offset) chunks.
Proof.
  induction fuel as [|fuel IH]; intros offset acc Hoff Hfuel.
  - exists []. assert (offset = len rawTx) as -> by lia.
    cbn [chunk_loop]. rewrite Z.eqb_refl, app_nil_r.
    repeat split; [|simpl; lia].
    unfold len. rewrite Nat2Z.id, skipn_all. reflexivity.
  - cbn [chunk_loop]. destruct (Z.eqb_spec offset (len rawTx)) as [->|Hne].
    + exists []. rewrite app_nil_r. repeat split; [|simpl; lia].
      unfold len. rewrite Nat2Z.id, skipn_all. reflexivity.
    + rewrite chunk_apdu_next by lia. cbn [Js.bind].
      assert (Hsize : chunkSize bipPath rawTx offset
                      = Z.min (len rawTx - offset) 255).
      { rewrite chunkSize_min. unfold maxChunkSize, MAX_CHUNK_SIZE.
        destruct (Z.eqb_spec offset 0); lia. }
      set (size := chunkSize bipPath rawTx offset) in *.
      set (c := firstn (Z.to_nat size) (skipn (Z.to_nat offset) rawTx)).
      assert (Hc : len c = size)
        by (apply (len_firstn_skipn rawTx offset size); lia).
      destruct (IH (offset + size) (acc ++ [next_apdu c]))
        as (chunks & Hrun & Hcat & Hgreedy); [lia | lia |].
      exists (c :: chunks). rewrite Hrun. repeat split.
      * cbn [map]. now rewrite <- app_assoc.
      * cbn [concat]. rewrite Hcat. unfold c.
        replace (Z.to_nat (offset + size))
          with (Z.to_nat size + Z.to_nat offset)%nat by lia.
        rewrite <- skipn_skipn. apply firstn_skipn.
      * lia.
      * lia.
      * replace (len rawTx - offset - len c)
          with (len rawTx - (offset + size)) by lia.
        exact Hgreedy.
Qed.

Lemma chunk_loop_plan bipPath rawTx fuel :
  len bipPath <= 63 -> Forall u32 bipPath -> (length rawTx <= fuel)%nat ->
  exists chunks,
    chunk_loop fuel bipPath rawTx 0 []
    = Normal (plan_of bipPath chunks, len rawTx)
    /\ concat chunks = rawTx
    /\ greedy (255 - 1 - 4 * len bipPath) (len rawTx) chunks.
Proof.
  intros HL Hu Hfuel. pose proof (len_nonneg bipPath) as HL0.
  destruct rawTx as [|b rest] eqn:Eraw.
  - exists []. destruct fuel; cbn; repeat split; reflexivity.
  - rewrite <- Eraw in *.
    assert (HN : 0 < len rawTx) by (subst rawTx; rewrite len_cons;
                                     pose proof (len_nonneg rest); lia).
    destruct fuel as [|fuel]; [unfold len in HN; lia|].
    cbn [chunk_loop]. destruct (Z.eqb_spec 0 (len rawTx)) as [?|_]; [lia|].
    rewrite chunk_apdu_first by assumption. cbn [Js.bind app].
    assert (Hsize : chunkSize bipPath rawTx 0
                    = Z.min (len rawTx) (254 - 4 * len bipPath)).
    { rewrite chunkSize_min. unfold maxChunkSize, MAX_CHUNK_SIZE.
    cbn [Z.eqb]. lia. }
    set (size := chunkSize bipPath rawTx 0) in *.
    set (c := firstn (Z.to_nat size) rawTx).
    assert (Hc : len c = size)
      by (apply (len_firstn_skipn rawTx 0 size); lia).
    destruct (chunk_loop_next bipPath rawTx fuel (0 + size)
                [first_apdu bipPath c])
      as (chunks & Hrun & Hcat & Hgreedy); [lia | unfold len in *; lia |].
    exists (c :: chunks). rewrite Hrun. repeat split.
    + cbn [concat]. rewrite Hcat. apply firstn_skipn.
    + lia.
    + lia.
    + replace (len rawTx - len c) with (len rawTx - (0 + size)) by lia.
      exact Hgreedy.
Qed.

Lemma greedy_nth chunks :
  forall budget remaining,
    greedy budget remaining chunks ->
    forall i c,
      nth_error chunks i = Some c ->
      0 < len c
      /\ len c = Z.min (remaining - len (concat (firstn i chunks)))
                       (if (i =? 0)%nat then budget else 255).
Proof.
  induction chunks as [|c0 cs IH]; intros budget remaining Hg i c Hi.
  - destruct i; discriminate.
  - destruct Hg as (Hlen & Hpos & Hrest). destruct i as [|j].
    + injection Hi as <-. cbn [firstn concat Nat.eqb].
      change (len (@nil Z)) with 0. split; [assumption | lia].
    + cbn [nth_error] in Hi. destruct (IH _ _ Hrest j c Hi) as [Hp Hl].
      split; [assumption|]. cbn [firstn concat Nat.eqb]. rewrite len_app.
      rewrite Hl. destruct (j =? 0)%nat; lia.
Qed.

(** ** Strings decoded from buffers *)

Lemma str_eqb_eq (a b : str) : str_eqb a b = true <-> a = b.
Proof.
  revert b. induction a as [|x a IH]; intros [|y b]; cbn [str_eqb];
    try (split; [discriminate | congruence]); try tauto.
  rewrite andb_true_iff, Z.eqb_eq, IH. split.
  - intros [-> ->]. reflexivity.
  - intros H. injection H as -> ->. auto.
Qed.

Lemma lor_D800_not_ascii (a u : Z) :
  0 <= u < 0x80 -> Z.lor a 0xD800 <> u.
Proof.
  intros Hu Heq.
  assert (Hbit : Z.testbit (Z.lor a 0xD800) 15 = true).
  { rewrite Z.lor_spec.
    replace (Z.testbit 0xD800 15) with true by reflexivity.
    apply orb_true_r. }
  rewrite Heq in Hbit.
  destruct (Z.eq_dec u 0) as [->|Hnz]; [discriminate|].
  rewrite Z.bits_above_log2 in Hbit; [discriminate | lia |].
  apply Z.log2_lt_pow2; [lia|]. change (2 ^ 15) with 32768. lia.
Qed.

Ltac emits_replacement :=
  do 2 eexists; split; [reflexivity | assumption].

(** A byte that is not ASCII never decodes to an ASCII code unit. *)
Lemma toString_head_not_ascii (b0 : Z) (r0 : list Z) :
  (b0 <? 0x80) = false ->
  exists u rest,
    Buffer.toString (b0 :: r0) = u :: rest /\ ~ (0 <= u < 0x80).
Proof.
  intros Hb. cbn [Buffer.toString]. rewrite Hb.
  assert (Hrep : ~ (0 <= Buffer.REPLACEMENT < 0x80))
    by (unfold Buffer.REPLACEMENT; lia).
  destruct (0xEF <? b0).
  { destruct r0 as [|b1 [|b2 [|b3 r3]]]; try solve [emits_replacement].
    destruct (Buffer.decode4 b0 b1 b2 b3) as [cp|];
      [|emits_replacement].
    unfold Buffer.surrogates. cbn [app]. do 2 eexists. split; [reflexivity|].
    intros Hu. eapply lor_D800_not_ascii; [exact Hu | reflexivity]. }
  destruct (0xDF <? b0).
  { destruct r0 as [|b1 [|b2 r2]]; try solve [emits_replacement].
    destruct (Buffer.decode3 b0 b1 b2) as [cp|] eqn:E;
      [|emits_replacement].
    do 2 eexists. split; [reflexivity|]. unfold Buffer.decode3 in E. cbv zeta in E.
    destruct (Buffer.is_cont b1 && Buffer.is_cont b2); [|discriminate].
    match type of E with (if ?c then _ else _) = _ =>
      destruct c eqn:Ec; [|discriminate] end.
    apply andb_true_iff in Ec as [Ec _].
    match type of E with Some ?e = _ => remember e as v eqn:Hv end.
    clear Hv. injection E as <-. lia. }
  destruct (0xBF <? b0).
  { destruct r0 as [|b1 r1]; try solve [emits_replacement].
    destruct (Buffer.decode2 b0 b1) as [cp|] eqn:E;
      [|emits_replacement].
    do 2 eexists. split; [reflexivity|]. unfold Buffer.decode2 in E. cbv zeta in E.
    destruct (Buffer.is_cont b1); [|discriminate].
    match type of E with (if ?c then _ else _) = _ =>
      destruct c eqn:Ec; [|discriminate] end.
    match type of E with Some ?e = _ => remember e as v eqn:Hv end.
    clear Hv. injection E as <-. lia. }
  emits_replacement.
Qed.

(** Only the ASCII bytes themselves decode to an ASCII string. *)
Lemma toString_ascii_inv (target : str) :
  Forall (fun u => 0 <= u < 0x80) target ->
  forall buf, Buffer.toString buf = target -> buf = target.
Proof.
  induction 1 as [|u target Hu Htarget IH]; intros [|b0 r0] Hdec;
    try reflexivity.
  - destruct (b0 <? 0x80) eqn:Hb.
    + cbn [Buffer.toString] in Hdec. rewrite Hb in Hdec. discriminate.
    + destruct (toString_head_not_ascii b0 r0 Hb) as (v & rest & Hv & _).
      congruence.
  - discriminate.
  - destruct (b0 <? 0x80) eqn:Hb.
    + cbn [Buffer.toString] in Hdec. rewrite Hb in Hdec.
      injection Hdec as -> Hrest. f_equal. now apply IH.
    + destruct (toString_head_not_ascii b0 r0 Hb) as (v & rest & Hv & Hn).
      rewrite Hv in Hdec. injection Hdec as -> _. contradiction.
Qed.

Lemma toString_continue (buf : Buffer.t) :
  str_eqb (Buffer.toString buf) CONTINUE_SENDING = true
  <-> buf = [0x30; 0x78; 0x39; 0x30; 0x30; 0x30].
Proof.
  rewrite str_eqb_eq. split.
  - intros H. apply toString_ascii_inv in H; [exact H|].
    unfold CONTINUE_SENDING, lit. cbn. repeat constructor; lia.
  - intros ->. reflexivity.
Qed.

(** ** Runs of the driver *)

Lemma last_entry_cons {A} (x : A) (l : list A) :
  exists y, last_entry (x :: l) = Some y.
Proof.
  revert x. induction l as [|z l IH]; intros x; [now exists x|].
  destruct (IH z) as [y Hy]. exists y. exact Hy.
Qed.

Lemma final_outcome_cons a bytes entries init :
  final_outcome ((a, Response bytes) :: entries) init
  = final_outcome entries bytes.
Proof.
  unfold final_outcome. destruct entries as [|x entries]; [reflexivity|].
  change (last_entry ((a, Response bytes) :: x :: entries))
    with (last_entry (x :: entries)).
  destruct (last_entry_cons x entries) as [y ->]. reflexivity.
Qed.

Section Runs.

Context {Device : Type}.
Variable exchange : Device -> Apdu -> Device * reply.
Variable fromString : string -> option (list Z).
Variable hexToUint8 : str -> completion (list Z).
Variable createTransactionHash : str -> list Z -> completion str.

Local Abbreviation handler := (ledgerMessageHandler Device exchange fromString).
Local Abbreviation account := (getAccount Device exchange fromString).
Local Abbreviation version := (getAppVersion Device exchange).
Local Abbreviation sign :=
  (signTransaction Device exchange fromString hexToUint8
     createTransactionHash).

Lemma send_all_run plan :
  forall response (w : World Device),
  exists sent,
    log (snd (send_all Device exchange plan response w)) = log w ++ sent
    /\ fst (send_all Device exchange plan response w)
       = final_outcome sent response
    /\ (forall r, fst (send_all Device exchange plan response w) = Normal r
                  -> map fst sent = plan).
Proof.
  induction plan as [|a rest IH]; intros response w.
  - exists []. cbn. rewrite app_nil_r. auto.
  - cbn [send_all]. unfold sbind, transport_send.
    destruct (exchange (device w) a) as [d' [code|bytes]].
    + exists [(a, Failure code)]. cbn. repeat split. discriminate.
    + destruct (IH bytes {| device := d';
                            log := log w ++ [(a, Response bytes)] |})
        as (sent & Hlog & Hout & Hall).
      exists ((a, Response bytes) :: sent).
      rewrite Hlog, Hout, final_outcome_cons. cbn [log].
      repeat split.
      * now rewrite <- app_assoc.
      * intros r Hr. cbn [map fst]. f_equal. apply (Hall r).
        now rewrite Hout.
Qed.

(** The handler once the path is parsed and the plan is built. *)
Lemma handler_run fuel path rawTx bipPath plan offset d :
  fromString path = Some bipPath ->
  chunk_loop fuel bipPath rawTx 0 [] = Normal (plan, offset) ->
  fst (run (handler fuel path rawTx) d)
  = match final_outcome (log (snd (run (handler fuel path rawTx) d))) [] with
    | Normal final =>
        if str_eqb (Buffer.toString final) CONTINUE_SENDING
        then Normal None else Normal (Some final)
    | Throw e => Throw e
    | OutOfFuel => OutOfFuel
    end
  /\ (forall v, fst (run (handler fuel path rawTx) d) = Normal v ->
                map fst (log (snd (run (handler fuel path rawTx) d))) = plan).
Proof.
  intros Hpath Hplan.
  unfold run, ledgerMessageHandler, sbind, lift, bipPath_of.
  rewrite Hpath, Hplan. cbn [Buffer.alloc Z.ltb Z.compare Z.to_nat repeat fst].
  destruct (send_all_run plan [] {| device := d; log := [] |})
    as (sent & Hlog & Hout & Hall).
  cbn [log app] in Hlog.
  destruct (send_all Device exchange plan [] {| device := d; log := [] |})
    as [[final|e|] w] eqn:Hsend; cbn [fst snd] in *.
  - destruct (str_eqb (Buffer.toString final) CONTINUE_SENDING) eqn:Hc;
      cbn [negb ret fst snd]; rewrite Hlog, <- Hout, Hc;
      (split; [reflexivity | intros _ _; now apply (Hall final)]).
  - rewrite Hlog, <- Hout. split; [reflexivity | discriminate].
  - rewrite Hlog, <- Hout. split; [reflexivity | discriminate].
Qed.

Lemma handler_bad_path fuel path rawTx d :
  fromString path = None ->
  run (handler fuel path rawTx) d
  = (Throw PathError, {| device := d; log := [] |}).
Proof.
  intros Hpath. unfold run, ledgerMessageHandler, sbind, lift, bipPath_of.
  now rewrite Hpath.
Qed.

Lemma handler_no_plan fuel path rawTx bipPath e d :
  fromString path = Some bipPath ->
  chunk_loop fuel bipPath rawTx 0 [] = Throw e ->
  run (handler fuel path rawTx) d = (Throw e, {| device := d; log := [] |}).
Proof.
  intros Hpath Hplan.
  unfold run, ledgerMessageHandler, sbind, lift, bipPath_of.
  now rewrite Hpath, Hplan.
Qed.

Lemma account_data bipPath networkType :
  len bipPath <= 63 -> Forall u32 bipPath -> is_byte networkType ->
  (let* fresh := Buffer.alloc (1 + len bipPath * 4 + 1) in
   let* d1 := Buffer.writeInt8 fresh (len bipPath) 0 in
   let* d2 := write_segments d1 bipPath 0 in
   Buffer.writeUInt8 d2 networkType (1 + len bipPath * 4))
  = Normal (path_header bipPath ++ [networkType]).
Proof.
  intros HL Hu Hnet. pose proof (len_nonneg bipPath) as HL0.
  unfold Buffer.alloc.
  destruct (1 + len bipPath * 4 + 1 <? 0) eqn:E; [lia|]. cbn [Js.bind].
  replace (Z.to_nat (1 + len bipPath * 4 + 1))
    with (1 + (4 * length bipPath + 1))%nat by (unfold len; lia).
  rewrite !repeat_app. cbn [repeat app].
  unfold Buffer.writeInt8.
  destruct ((len bipPath <? -128) || (127 <? len bipPath)) eqn:E1; [lia|].
  rewrite (Z.mod_small (len bipPath) 256) by lia.
  change (Buffer.checked_store (0 :: repeat 0 (4 * length bipPath) ++ [0]) 0
            [len bipPath])
    with (Buffer.checked_store ([] ++ [0] ++ repeat 0 (4 * length bipPath)
                                  ++ [0]) (len (@nil Z)) [len bipPath]).
  rewrite checked_store_splice by reflexivity. cbn [Js.bind app].
  change (len bipPath :: repeat 0 (4 * length bipPath) ++ [0])
    with ([len bipPath] ++ repeat 0 (4 * length bipPath) ++ [0]).
  rewrite write_segments_splice;
    [| assumption | reflexivity | apply repeat_length].
  cbn [Js.bind]. rewrite app_assoc.
  change ([len bipPath] ++ flat_map Buffer.be32 bipPath)
    with (path_header bipPath).
  unfold Buffer.writeUInt8. unfold is_byte in Hnet.
  destruct ((networkType <? 0) || (255 <? networkType)) eqn:E2; [lia|].
  replace (1 + len bipPath * 4) with (len (path_header bipPath))
    by (rewrite len_path_header; lia).
  rewrite <- (app_nil_r [0]).
  rewrite checked_store_splice by reflexivity. now rewrite app_nil_r.
Qed.

Lemma getAccount_run path networkType display bipPath d :
  fromString path = Some bipPath ->
  len bipPath <= 63 -> Forall u32 bipPath -> is_byte networkType ->
  run (account path networkType display) d
  = let apdu := account_apdu bipPath networkType display in
    let (d', r) := exchange d apdu in
    (match r with
     | Failure code => Throw (TransportError code)
     | Response response =>
         if option_eqb (Buffer.get response 0) 32
         then Normal {| publicKey :=
                          Buffer.toString_hex (Buffer.slice response 1 33) |}
         else Throw (StatusCode 27904)
     end,
     {| device := d'; log := [(apdu, r)] |}).
Proof.
  intros Hpath HL Hu Hnet.
  pose proof (account_data bipPath networkType HL Hu Hnet) as Hdata.
  unfold run, getAccount, sbind, lift, bipPath_of. rewrite Hpath.
  destruct (Buffer.alloc (1 + len bipPath * 4 + 1)) as [fresh| |];
    try discriminate. cbn [Js.bind] in Hdata.
  destruct (Buffer.writeInt8 fresh (len bipPath) 0) as [d1| |];
    try discriminate. cbn [Js.bind] in Hdata.
  destruct (write_segments d1 bipPath 0) as [d2| |];
    try discriminate. cbn [Js.bind] in Hdata.
  rewrite Hdata. unfold transport_send. cbn [device log app].
  fold (account_apdu bipPath networkType display).
  change {| cla := CLA_FIELD; ins := GET_ACCOUNT_INS_FIELD;
            p1 := if display then 1 else 0; p2 := curveMask;
            data := path_header bipPath ++ [networkType] |}
    with (account_apdu bipPath networkType display).
  cbv zeta.
  destruct (exchange d (account_apdu bipPath networkType display))
    as [d' [code|response]]; [reflexivity|].
  destruct (Buffer.get response 0) as [publicKeyLength|]; [|reflexivity].
  cbn [option_eqb]. destruct (Z.eqb_spec publicKeyLength 32) as [->|_];
    reflexivity.
Qed.

Lemma getAccount_bad_path path networkType display d :
  fromString path = None ->
  run (account path networkType display) d
  = (Throw PathError, {| device := d; log := [] |}).
Proof.
  intros Hpath. unfold run, getAccount, sbind, lift, bipPath_of.
  now rewrite Hpath.
Qed.

Lemma getAppVersion_run d :
  run version d
  = let (d', r) := exchange d version_apdu in
    (match r with
     | Failure code => Throw (TransportError code)
     | Response response =>
         Normal {| majorVersion := Buffer.get response 1;
                   minorVersion := Buffer.get response 2;
                   patchVersion := Buffer.get response 3 |}
     end,
     {| device := d'; log := [(version_apdu, r)] |}).
Proof.
  unfold run, getAppVersion, sbind, lift, transport_send.
  change (Buffer.alloc 1) with (Normal [0]). cbn [device log app].
  change {| cla := CLA_FIELD; ins := GET_VERSION_INS_FIELD; p1 := 0; p2 := 0;
            data := [0] |} with version_apdu.
  destruct (exchange d version_apdu) as [d' [code|response]]; reflexivity.
Qed.

Lemma signTransaction_run fuel path transaction networkGenerationHash key d :
  run (sign fuel path transaction networkGenerationHash key) d
  = match run (handler fuel path
                 (Buffer.from_hex (networkGenerationHash
                                     ++ skipn 216 (serialize transaction)))) d
    with
    | (Normal (Some response), w) =>
        (let payload := spliced (serialize transaction) response key in
         let* generationHashBytes := hexToUint8 networkGenerationHash in
         let* transactionHash :=
           createTransactionHash payload generationHashBytes in
         Normal {| payload := payload;
                   hash := transactionHash;
                   signerPublicKey := key;
                   signed_type := tx_type transaction;
                   signed_networkType := tx_networkType transaction |}, w)
    | (Normal None, w) => (Throw TypeError, w)
    | (Throw e, w) => (Throw e, w)
    | (OutOfFuel, w) => (OutOfFuel, w)
    end.
Proof.
  unfold run, signTransaction, sbind.
  change (slice_from (serialize transaction) 216)
    with (skipn 216 (serialize transaction)).
  destruct (handler fuel path _ _) as [[[response|]|e|] w]; try reflexivity.
  unfold lift, ret, spliced, slice.
  change (Z.to_nat 128 - Z.to_nat 0)%nat with 128%nat.
  change (Z.to_nat 16 - Z.to_nat 0)%nat with 16%nat.
  change (Z.to_nat (16 + 128 + 64)) with 208%nat.
  change (Z.to_nat 0) with 0%nat. rewrite !skipn_O.
  assert (Hrest : firstn (Z.to_nat (len (serialize transaction)) - 208)
                    (skipn 208 (serialize transaction))
                  = skipn 208 (serialize transaction)).
  { apply firstn_all2. rewrite length_skipn. unfold len. lia. }
  rewrite Hrest.
  destruct (hexToUint8 networkGenerationHash) as [g|e|]; try reflexivity.
  cbn [Js.bind].
  destruct (createTransactionHash _ g) as [h|e|]; reflexivity.
Qed.

End Runs.

(** ** The loop beyond the budget, and the length of a plan *)

Lemma chunk_loop_overflow bipPath rawTx fuel :
  63 < len bipPath -> rawTx <> [] ->
  chunk_loop (S fuel) bipPath rawTx 0 [] = Throw RangeError.
Proof.
  intros HL Hne.
  assert (HN : 0 < len rawTx).
  { destruct rawTx; [congruence|]. rewrite len_cons.
    pose proof (len_nonneg rawTx). lia. }
  cbn [chunk_loop]. destruct (Z.eqb_spec 0 (len rawTx)) as [?|_]; [lia|].
  assert (Hsize : chunkSize bipPath rawTx 0 = 254 - 4 * len bipPath).
  { rewrite chunkSize_min. unfold maxChunkSize, MAX_CHUNK_SIZE.
    cbn [Z.eqb]. lia. }
  unfold chunk_apdu. cbn [Z.eqb]. rewrite Hsize.
  replace (1 + len bipPath * 4 + (254 - 4 * len bipPath)) with 255 by lia.
  change (Buffer.alloc 255) with (Normal (repeat 0 255)). cbn [Js.bind].
  unfold Buffer.writeInt8.
  destruct ((len bipPath <? -128) || (127 <? len bipPath)); [reflexivity|].
  destruct (Buffer.checked_store (repeat 0 255) 0 [len bipPath mod 256])
    as [d1|e|] eqn:E; cbn [Js.bind].
  - apply checked_store_length in E. rewrite repeat_length in E.
    rewrite write_segments_overflow; [reflexivity | | lia |].
    + intros ->. unfold len in HL. simpl in HL. lia.
    + unfold len at 1. rewrite E. lia.
  - unfold Buffer.checked_store in E.
    destruct ((0 <? 0) || (len (repeat 0 255) <? 0 + len [len bipPath mod 256]));
      congruence.
  - unfold Buffer.checked_store in E.
    destruct ((0 <? 0) || (len (repeat 0 255) <? 0 + len [len bipPath mod 256]));
      congruence.
Qed.

Lemma greedy_length chunks :
  forall budget remaining,
    greedy budget remaining chunks -> len chunks <= remaining.
Proof.
  induction chunks as [|c cs IH]; intros budget remaining Hg.
  - cbn in Hg. subst. unfold len. simpl. lia.
  - destruct Hg as (Hlen & Hpos & Hrest). apply IH in Hrest.
    rewrite len_cons. lia.
Qed.

Lemma length_plan_of bipPath chunks :
  length (plan_of bipPath chunks) = length chunks.
Proof. destruct chunks; cbn; [reflexivity | now rewrite length_map]. Qed.

(** ** Hexadecimal strings and big-endian words *)

Lemma toString_hex_app a b :
  Buffer.toString_hex (a ++ b) = Buffer.toString_hex a ++ Buffer.toString_hex b.
Proof. apply flat_map_app. Qed.

Lemma firstn_toString_hex n :
  forall buf,
    firstn (2 * n) (Buffer.toString_hex buf)
    = Buffer.toString_hex (firstn n buf).
Proof.
  induction n as [|n IH]; intros [|b buf]; try reflexivity.
  replace (2 * S n)%nat with (S (S (2 * n))) by lia.
  cbn [Buffer.toString_hex flat_map firstn app].
  f_equal. f_equal. apply IH.
Qed.

Lemma skipn_toString_hex n :
  forall buf,
    skipn (2 * n) (Buffer.toString_hex buf)
    = Buffer.toString_hex (skipn n buf).
Proof.
  induction n as [|n IH]; intros [|b buf]; try reflexivity.
  replace (2 * S n)%nat with (S (S (2 * n))) by lia.
  cbn [Buffer.toString_hex flat_map skipn app]. apply IH.
Qed.

(** On hex digits the splice is a splice of bytes: 8 header bytes, the
    first 64 bytes of the response, the key, the rest from byte 104. *)
Lemma spliced_bytes raw response key :
  spliced (Buffer.toString_hex raw) response (Buffer.toString_hex key)
  = Buffer.toString_hex
      (firstn 8 raw ++ firstn 64 response ++ key ++ skipn 104 raw).
Proof.
  unfold spliced. rewrite !toString_hex_app.
  rewrite <- (firstn_toString_hex 8 raw), <- (firstn_toString_hex 64 response).
  rewrite <- (skipn_toString_hex 104 raw). reflexivity.
Qed.

Lemma be32_big_endian v :
  u32 v ->
  be_value (Buffer.be32 v) = v /\ Forall is_byte (Buffer.be32 v).
Proof.
  unfold u32, Buffer.be32, be_value. intros Hv.
  cbn [fold_left]. change 0xff with (Z.ones 8).
  rewrite !Z.land_ones, !Z.shiftr_div_pow2 by lia.
  change (2 ^ 8) with 256. change (2 ^ 16) with 65536.
  change (2 ^ 24) with 16777216.
  split.
  - Z.div_mod_to_equations. lia.
  - repeat apply Forall_cons; try apply Forall_nil; unfold is_byte;
      Z.div_mod_to_equations; lia.
Qed.

(** * Properties of the driver *)

(** C1. For a derivation path within the chunk budget (at most 63 segments,
    each an unsigned 32-bit integer) and any payload of N bytes, the loop
    builds a plan whose payload slices, in order, concatenate to exactly the
    payload: the first slice has min(N, 255 - 1 - 4L) bytes and follows the
    path header (count byte, then every segment as four bytes that read
    back as the segment most significant byte first); every later slice has
    min(remaining, 255) bytes and is the whole data of its packet, so the
    header appears in the first packet only. No slice is empty. *)
Theorem chunk_plan_covers_payload bipPath rawTx fuel :
  len bipPath <= 63 -> Forall u32 bipPath -> (length rawTx <= fuel)%nat ->
  exists chunks,
    chunk_loop fuel bipPath rawTx 0 []
    = Normal (plan_of bipPath chunks, len rawTx)
    /\ concat chunks = rawTx
    /\ (forall i c,
          nth_error chunks i = Some c ->
          0 < len c
          /\ len c = Z.min (len rawTx - len (concat (firstn i chunks)))
                           (if (i =? 0)%nat then 255 - 1 - 4 * len bipPath
                            else 255))
    /\ map data (plan_of bipPath chunks)
       = match chunks with
         | [] => []
         | c :: cs =>
             (len bipPath :: flat_map Buffer.be32 bipPath ++ c) :: cs
         end
    /\ Forall (fun segment =>
                 length (Buffer.be32 segment) = 4%nat
                 /\ be_value (Buffer.be32 segment) = segment) bipPath.
Proof.
  intros HL Hu Hfuel.
  destruct (chunk_loop_plan bipPath rawTx fuel HL Hu Hfuel)
    as (chunks & Hrun & Hcat & Hgreedy).
  exists chunks. split; [exact Hrun|]. split; [exact Hcat|].
  split; [|split].
  - intros i c Hi. exact (greedy_nth _ _ _ Hgreedy i c Hi).
  - destruct chunks as [|c cs]; [reflexivity|].
    cbn [plan_of map data first_apdu]. f_equal.
    rewrite map_map. cbn [data next_apdu]. apply map_id.
  - rewrite Forall_forall in *. intros segment Hin.
    split; [reflexivity|]. apply be32_big_endian. now apply Hu.
Qed.

Lemma chunk_plan_covers_payload_witness :
  exists chunks,
    chunk_loop 300 sample_bipPath (counting 0 300) 0 []
    = Normal (plan_of sample_bipPath chunks, len (counting 0 300))
    /\ concat chunks = counting 0 300
    /\ (forall i c,
          nth_error chunks i = Some c ->
          0 < len c
          /\ len c = Z.min (len (counting 0 300)
                            - len (concat (firstn i chunks)))
                           (if (i =? 0)%nat
                            then 255 - 1 - 4 * len sample_bipPath else 255))
    /\ map data (plan_of sample_bipPath chunks)
       = match chunks with
         | [] => []
         | c :: cs =>
             (len sample_bipPath :: flat_map Buffer.be32 sample_bipPath ++ c)
               :: cs
         end
    /\ Forall (fun segment =>
                 length (Buffer.be32 segment) = 4%nat
                 /\ be_value (Buffer.be32 segment) = segment) sample_bipPath.
Proof.
  apply (chunk_plan_covers_payload sample_bipPath (counting 0 300) 300).
  - vm_compute. discriminate.
  - repeat constructor; vm_compute; discriminate.
  - vm_compute. repeat constructor.
Defined.

(** The scenario of the specification: 600 bytes under a three-segment path
    go out as three packets carrying 242, 255 and 103 payload bytes, flagged
    0x80, 0x81, 0x01. *)
Example plan_600_bytes :
  exists plan,
    chunk_loop 600 three_segments (counting 0 600) 0 [] = Normal (plan, 600)
    /\ map p1 plan = [0x80; 0x81; 0x01]
    /\ map (fun a => len (data a)) plan = [13 + 242; 255; 103].
Proof. eexists. split; [vm_compute; reflexivity | split; reflexivity]. Qed.

(** C2, at the input where the code departs from it. A payload that fills
    the first chunk exactly (242 bytes under a three-segment path) is sent as
    one packet, first and last at once, yet its parameter-1 is 0x80, the
    value for "more chunks follow", and not 0x00. *)
Theorem exact_fit_flagged_as_more :
  exists first,
    chunk_loop 242 three_segments (counting 0 242) 0 [] = Normal ([first], 242)
    /\ data first = path_header three_segments ++ counting 0 242
    /\ p1 first = 0x80.
Proof. eexists. split; [vm_compute; reflexivity | split; reflexivity]. Qed.

(** The same on a continuation chunk: 242 + 255 bytes end with a full second
    packet, which is flagged 0x81 although nothing follows it. *)
Example exact_fit_continuation :
  exists plan,
    chunk_loop 497 three_segments (counting 0 497) 0 [] = Normal (plan, 497)
    /\ map p1 plan = [0x80; 0x81].
Proof. eexists. split; [vm_compute; reflexivity | reflexivity]. Qed.

(** C10, as the code has it. With at most 63 segments the loop ends after
    at most N iterations with the offset equal to the payload length N. With
    more than 63 segments and a non-empty payload the loop ends too, in its
    first iteration, with the range error of a path header written past the
    end of the 255-byte first packet; no offset is ever moved. *)
Theorem chunk_loop_always_stops bipPath rawTx fuel :
  (length rawTx <= fuel)%nat ->
  (len bipPath <= 63 -> Forall u32 bipPath ->
   exists plan,
     chunk_loop fuel bipPath rawTx 0 [] = Normal (plan, len rawTx)
     /\ len plan <= len rawTx)
  /\ (63 < len bipPath -> rawTx <> [] ->
      chunk_loop fuel bipPath rawTx 0 [] = Throw RangeError).
Proof.
  intros Hfuel. split.
  - intros HL Hu.
    destruct (chunk_loop_plan bipPath rawTx fuel HL Hu Hfuel)
      as (chunks & Hrun & Hcat & Hgreedy).
    exists (plan_of bipPath chunks). split; [exact Hrun|].
    apply greedy_length in Hgreedy. unfold len in *.
    rewrite length_plan_of. lia.
  - intros HL Hne. destruct fuel as [|fuel].
    + destruct rawTx; [congruence | simpl in Hfuel; lia].
    + now apply chunk_loop_overflow.
Qed.

Lemma chunk_loop_always_stops_witness :
  (exists plan,
     chunk_loop 300 sample_bipPath (counting 0 300) 0 []
     = Normal (plan, len (counting 0 300))
     /\ len plan <= len (counting 0 300))
  /\ chunk_loop 3 (repeat 0 64) [1; 2; 3] 0 [] = Throw RangeError.
Proof.
  split.
  - apply (chunk_loop_always_stops sample_bipPath (counting 0 300) 300).
    + vm_compute. repeat constructor.
    + vm_compute. discriminate.
    + repeat constructor; vm_compute; discriminate.
  - apply (chunk_loop_always_stops (repeat 0 64) [1; 2; 3] 3).
    + vm_compute. repeat constructor.
    + vm_compute. reflexivity.
    + discriminate.
Defined.

(** C10 as stated fails: a path of 64 segments is beyond the bound, and the
    loop still stops on a non-empty payload. *)
Lemma segment_bound_not_needed_to_stop :
  ~ ([1; 2; 3] <> [] -> loop_stops (repeat 0 64) [1; 2; 3] ->
     len (repeat 0 64) <= 63).
Proof.
  intros H.
  assert (Hlen : len (repeat 0 64) <= 63).
  { apply H; [discriminate|]. exists 1%nat. vm_compute. discriminate. }
  vm_compute in Hlen. apply Hlen. reflexivity.
Qed.

(** C3. Once the plan is built and sent, the outcome of the chunked transfer
    is read off the last exchange alone: when that response decodes to the
    marker "0x9000" the handler returns no value (undefined, not an error);
    any other final response is returned unchanged. Every packet of the plan
    has been exchanged by then, so the earlier responses are dropped. A
    rejected exchange is the last one made and its error propagates; with no
    exchange at all the empty buffer is returned. *)
Theorem last_response_is_the_result {Device : Type}
    (exchange : Device -> Apdu -> Device * reply)
    (fromString : string -> option (list Z))
    fuel path rawTx bipPath (d : Device) :
  fromString path = Some bipPath ->
  len bipPath <= 63 -> Forall u32 bipPath -> (length rawTx <= fuel)%nat ->
  let (result, w) :=
    run (ledgerMessageHandler Device exchange fromString fuel path rawTx) d in
  result
  = match last_entry (log w) with
    | None => Normal (Some [])
    | Some (_, Failure code) => Throw (TransportError code)
    | Some (_, Response final) =>
        if str_eqb (Buffer.toString final) (lit "0x9000")
        then Normal None else Normal (Some final)
    end
  /\ (forall v, result = Normal v ->
      exists chunks,
        concat chunks = rawTx /\ map fst (log w) = plan_of bipPath chunks).
Proof.
  intros Hpath HL Hu Hfuel.
  destruct (chunk_loop_plan bipPath rawTx fuel HL Hu Hfuel)
    as (chunks & Hrun & Hcat & _).
  destruct (handler_run exchange fromString fuel path rawTx bipPath _ _ d
              Hpath Hrun) as [Hres Hsent].
  destruct (run _ d) as [result w]. cbn [fst snd] in *. split.
  - rewrite Hres. unfold final_outcome.
    destruct (last_entry (log w)) as [[a [code|final]]|]; reflexivity.
  - intros v Hv. exists chunks. split; [exact Hcat | now apply (Hsent v)].
Qed.

Lemma last_response_is_the_result_witness :
  let (result, w) :=
    run (ledgerMessageHandler (list reply) scripted_exchange
           sample_fromString 300 sample_path (counting 0 300))
        [Response [1; 2]; Response [3; 4; 5]] in
  result
  = match last_entry (log w) with
    | None => Normal (Some [])
    | Some (_, Failure code) => Throw (TransportError code)
    | Some (_, Response final) =>
        if str_eqb (Buffer.toString final) (lit "0x9000")
        then Normal None else Normal (Some final)
    end
  /\ (forall v, result = Normal v ->
      exists chunks,
        concat chunks = counting 0 300
        /\ map fst (log w) = plan_of sample_bipPath chunks).
Proof.
  apply (last_response_is_the_result scripted_exchange sample_fromString
           300 sample_path (counting 0 300) sample_bipPath).
  - reflexivity.
  - vm_compute. discriminate.
  - repeat constructor; vm_compute; discriminate.
  - vm_compute. repeat constructor.
Defined.

Example two_exchanges_last_one_returned :
  fst (run (ledgerMessageHandler (list reply) scripted_exchange
              sample_fromString 300 sample_path (counting 0 300))
         [Response [1; 2]; Response [3; 4; 5]])
  = Normal (Some [3; 4; 5]).
Proof. vm_compute. reflexivity. Qed.

Example marker_yields_undefined :
  fst (run (ledgerMessageHandler (list reply) scripted_exchange
              sample_fromString 300 sample_path (counting 0 300))
         [Response [1; 2]; Response [0x30; 0x78; 0x39; 0x30; 0x30; 0x30]])
  = Normal None.
Proof. vm_compute. reflexivity. Qed.

(** C9. The handler returns no value exactly when the last response is the
    six ASCII bytes of "0x9000"; a last response made of the two status
    bytes 0x90 0x00 is returned as it is. *)
Theorem continue_is_the_ascii_marker {Device : Type}
    (exchange : Device -> Apdu -> Device * reply)
    (fromString : string -> option (list Z))
    fuel path rawTx bipPath (d : Device) :
  fromString path = Some bipPath ->
  len bipPath <= 63 -> Forall u32 bipPath -> (length rawTx <= fuel)%nat ->
  let (result, w) :=
    run (ledgerMessageHandler Device exchange fromString fuel path rawTx) d in
  (result = Normal None
   <-> exists a,
         last_entry (log w)
         = Some (a, Response [0x30; 0x78; 0x39; 0x30; 0x30; 0x30]))
  /\ (forall a,
        last_entry (log w) = Some (a, Response [0x90; 0x00]) ->
        result = Normal (Some [0x90; 0x00])).
Proof.
  intros Hpath HL Hu Hfuel.
  destruct (chunk_loop_plan bipPath rawTx fuel HL Hu Hfuel)
    as (chunks & Hrun & _).
  destruct (handler_run exchange fromString fuel path rawTx bipPath _ _ d
              Hpath Hrun) as [Hres _].
  destruct (run _ d) as [result w]. cbn [fst snd] in *.
  rewrite Hres. unfold final_outcome. split.
  - destruct (last_entry (log w)) as [[a [code|final]]|].
    + split; [discriminate | intros [a' H]; discriminate].
    + destruct (str_eqb (Buffer.toString final) CONTINUE_SENDING) eqn:Hc.
      * apply toString_continue in Hc. subst final.
        split; [intros _; now exists a | reflexivity].
      * split; [discriminate|]. intros [a' H]. injection H as _ ->.
        discriminate.
    + cbn. split; [discriminate | intros [a' H]; discriminate].
  - intros a ->. reflexivity.
Qed.

Lemma continue_is_the_ascii_marker_witness :
  let (result, w) :=
    run (ledgerMessageHandler (list reply) scripted_exchange
           sample_fromString 300 sample_path (counting 0 300))
        [Response [1; 2]; Response [0x90; 0x00]] in
  (result = Normal None
   <-> exists a,
         last_entry (log w)
         = Some (a, Response [0x30; 0x78; 0x39; 0x30; 0x30; 0x30]))
  /\ (forall a,
        last_entry (log w) = Some (a, Response [0x90; 0x00]) ->
        result = Normal (Some [0x90; 0x00])).
Proof.
  apply (continue_is_the_ascii_marker scripted_exchange sample_fromString
           300 sample_path (counting 0 300) sample_bipPath).
  - reflexivity.
  - vm_compute. discriminate.
  - repeat constructor; vm_compute; discriminate.
  - vm_compute. repeat constructor.
Defined.

Example status_word_is_returned :
  fst (run (ledgerMessageHandler (list reply) scripted_exchange
              sample_fromString 300 sample_path (counting 0 300))
         [Response [1; 2]; Response [0x90; 0x00]])
  = Normal (Some [0x90; 0x00]).
Proof. vm_compute. reflexivity. Qed.

(** C7, as the code has it. A path string that the parser rejects makes the
    chunked transfer and the account query fail with the parser's error
    before any exchange. A path of more than 63 segments makes the chunked
    transfer of a non-empty payload fail with a range error before any
    exchange. An empty payload is not rejected: the chunked transfer makes
    no exchange and returns the empty buffer. *)
Theorem invalid_inputs {Device : Type}
    (exchange : Device -> Apdu -> Device * reply)
    (fromString : string -> option (list Z))
    fuel path rawTx networkType display (d : Device) :
  (fromString path = None ->
   run (ledgerMessageHandler Device exchange fromString fuel path rawTx) d
   = (Throw PathError, {| device := d; log := [] |})
   /\ run (getAccount Device exchange fromString path networkType display) d
      = (Throw PathError, {| device := d; log := [] |}))
  /\ (forall bipPath,
        fromString path = Some bipPath ->
        63 < len bipPath -> rawTx <> [] -> (0 < fuel)%nat ->
        run (ledgerMessageHandler Device exchange fromString fuel path rawTx) d
        = (Throw RangeError, {| device := d; log := [] |}))
  /\ (forall bipPath,
        fromString path = Some bipPath ->
        run (ledgerMessageHandler Device exchange fromString fuel path []) d
        = (Normal (Some []), {| device := d; log := [] |})).
Proof.
  split; [|split].
  - intros Hpath. split.
    + now apply handler_bad_path.
    + now apply getAccount_bad_path.
  - intros bipPath Hpath HL Hne Hfuel.
    apply (handler_no_plan exchange fromString fuel path rawTx bipPath);
      [assumption|].
    destruct fuel as [|fuel]; [lia|]. now apply chunk_loop_overflow.
  - intros bipPath Hpath.
    unfold run, ledgerMessageHandler, sbind, lift, bipPath_of.
    rewrite Hpath. destruct fuel; reflexivity.
Qed.

Lemma invalid_inputs_witness :
  run (ledgerMessageHandler (list reply) scripted_exchange sample_fromString
         5 "m/44'/x" [1; 2; 3]) [Response [7]]
  = (Throw PathError, {| device := [Response [7]]; log := [] |})
  /\ run (ledgerMessageHandler (list reply) scripted_exchange
            (fun _ => Some (repeat 0 64)) 5 sample_path [1; 2; 3])
         [Response [7]]
     = (Throw RangeError, {| device := [Response [7]]; log := [] |})
  /\ run (ledgerMessageHandler (list reply) scripted_exchange
            sample_fromString 5 sample_path []) [Response [7]]
     = (Normal (Some []), {| device := [Response [7]]; log := [] |}).
Proof.
  split; [|split].
  - apply (invalid_inputs scripted_exchange sample_fromString 5 "m/44'/x"
             [1; 2; 3] 104 false [Response [7]]).
    reflexivity.
  - apply (invalid_inputs scripted_exchange (fun _ => Some (repeat 0 64)) 5
             sample_path [1; 2; 3] 104 false [Response [7]]
             : _ /\ _ /\ _) with (bipPath := repeat 0 64).
    + reflexivity.
    + vm_compute. reflexivity.
    + discriminate.
    + vm_compute. repeat constructor.
  - apply (invalid_inputs scripted_exchange sample_fromString 5 sample_path
             [1; 2; 3] 104 false [Response [7]]
             : _ /\ _ /\ _) with (bipPath := sample_bipPath).
    reflexivity.
Defined.

(** C7 as stated fails on the empty payload: the call is not rejected. *)
Lemma empty_payload_not_rejected :
  ~ exists e,
      fst (run (ledgerMessageHandler (list reply) scripted_exchange
                  sample_fromString 5 sample_path []) [Response [7]])
      = Throw e.
Proof. intros [e H]. vm_compute in H. discriminate. Qed.

(** C8, as the code has it. The version query makes exactly one exchange,
    of the packet with class 0xE0, instruction 0x06, both parameters 0x00
    and one zero byte of data, and reads the response bytes at offsets 1, 2
    and 3 as major, minor and patch version. A response shorter than four
    bytes is not rejected: the call returns normally and the fields past the
    end of the response are undefined. *)
Theorem version_query {Device : Type}
    (exchange : Device -> Apdu -> Device * reply) (d : Device) :
  let (d', r) := exchange d (mkApdu 0xE0 0x06 0x00 0x00 [0x00]) in
  run (getAppVersion Device exchange) d
  = (match r with
     | Failure code => Throw (TransportError code)
     | Response response =>
         Normal {| majorVersion := nth_error response 1;
                   minorVersion := nth_error response 2;
                   patchVersion := nth_error response 3 |}
     end,
     {| device := d'; log := [(mkApdu 0xE0 0x06 0x00 0x00 [0x00], r)] |})
  /\ (forall response,
        r = Response response -> len response < 4 ->
        exists v,
          fst (run (getAppVersion Device exchange) d) = Normal v
          /\ patchVersion v = None).
Proof.
  pose proof (getAppVersion_run exchange d) as Hrun.
  change (mkApdu 0xE0 0x06 0x00 0x00 [0x00]) with version_apdu.
  destruct (exchange d version_apdu) as [d' r]. split; [exact Hrun|].
  intros response -> Hshort. rewrite Hrun. eexists. split; [reflexivity|].
  cbn [patchVersion]. apply nth_error_None. unfold len in Hshort. simpl. lia.
Qed.

Lemma version_query_witness :
  let (d', r) :=
    scripted_exchange [Response [0x00; 0; 1; 2]]
      (mkApdu 0xE0 0x06 0x00 0x00 [0x00]) in
  run (getAppVersion (list reply) scripted_exchange)
      [Response [0x00; 0; 1; 2]]
  = (match r with
     | Failure code => Throw (TransportError code)
     | Response response =>
         Normal {| majorVersion := nth_error response 1;
                   minorVersion := nth_error response 2;
                   patchVersion := nth_error response 3 |}
     end,
     {| device := d'; log := [(mkApdu 0xE0 0x06 0x00 0x00 [0x00], r)] |})
  /\ (forall response,
        r = Response response -> len response < 4 ->
        exists v,
          fst (run (getAppVersion (list reply) scripted_exchange)
                 [Response [0x00; 0; 1; 2]]) = Normal v
          /\ patchVersion v = None).
Proof.
  exact (version_query scripted_exchange [Response [0x00; 0; 1; 2]]).
Defined.

Example version_0_1_2 :
  fst (run (getAppVersion (list reply) scripted_exchange)
         [Response [0x00; 0; 1; 2]])
  = Normal {| majorVersion := Some 0; minorVersion := Some 1;
              patchVersion := Some 2 |}.
Proof. reflexivity. Qed.

(** C8 as stated fails on a two-byte response: the call is not rejected. *)
Lemma short_version_response_not_rejected :
  ~ exists e,
      fst (run (getAppVersion (list reply) scripted_exchange)
             [Response [0x00; 1]])
      = Throw e.
Proof. intros [e H]. vm_compute in H. discriminate. Qed.

Example short_version_response :
  fst (run (getAppVersion (list reply) scripted_exchange)
         [Response [0x00; 1]])
  = Normal {| majorVersion := Some 1; minorVersion := None;
              patchVersion := None |}.
Proof. reflexivity. Qed.

(** C5. The account query checks the first byte of the response, the
    declared key length: unless it is 32 the call throws the status code
    27904; when it is 32 the public key is the hex encoding of the 32 bytes
    that follow it. *)
Theorem account_response_validated {Device : Type}
    (exchange : Device -> Apdu -> Device * reply)
    (fromString : string -> option (list Z))
    path networkType display bipPath (d d' : Device) response :
  fromString path = Some bipPath ->
  len bipPath <= 63 -> Forall u32 bipPath -> is_byte networkType ->
  exchange d (account_apdu bipPath networkType display)
  = (d', Response response) ->
  (nth_error response 0 <> Some 32 ->
   fst (run (getAccount Device exchange fromString path networkType display) d)
   = Throw (StatusCode 27904))
  /\ (forall rest,
        response = 32 :: rest ->
        fst (run (getAccount Device exchange fromString path networkType
                    display) d)
        = Normal {| publicKey := Buffer.toString_hex (firstn 32 rest) |}).
Proof.
  intros Hpath HL Hu Hnet Hex.
  rewrite (getAccount_run exchange fromString path networkType display
             bipPath d Hpath HL Hu Hnet).
  cbv zeta. rewrite Hex. cbn [fst]. split.
  - intros Hne. destruct response as [|b rest]; [reflexivity|].
    cbn. destruct (Z.eqb_spec b 32) as [->|_]; [|reflexivity].
    now contradiction Hne.
  - intros rest ->. reflexivity.
Qed.

Lemma account_response_validated_witness :
  (nth_error (32 :: repeat 0xAB 32) 0 <> Some 32 ->
   fst (run (getAccount (list reply) scripted_exchange sample_fromString
               sample_path 104 false) [Response (32 :: repeat 0xAB 32)])
   = Throw (StatusCode 27904))
  /\ (forall rest,
        32 :: repeat 0xAB 32 = 32 :: rest ->
        fst (run (getAccount (list reply) scripted_exchange sample_fromString
                    sample_path 104 false) [Response (32 :: repeat 0xAB 32)])
        = Normal {| publicKey := Buffer.toString_hex (firstn 32 rest) |}).
Proof.
  apply (account_response_validated scripted_exchange sample_fromString
           sample_path 104 false sample_bipPath
           [Response (32 :: repeat 0xAB 32)] []).
  - reflexivity.
  - vm_compute. discriminate.
  - repeat constructor; vm_compute; discriminate.
  - split; vm_compute; discriminate.
  - reflexivity.
Defined.

Example account_key_ab :
  fst (run (getAccount (list reply) scripted_exchange sample_fromString
              sample_path 104 false) [Response (32 :: repeat 0xAB 32)])
  = Normal {| publicKey :=
      lit "abababababababababababababababababababababababababababababababab" |}.
Proof. vm_compute. reflexivity. Qed.

Example account_length_16 :
  fst (run (getAccount (list reply) scripted_exchange sample_fromString
              sample_path 104 false) [Response (16 :: repeat 0xAB 16)])
  = Throw (StatusCode 27904).
Proof. vm_compute. reflexivity. Qed.

(** C6. For a path of L segments within the budget the account query makes
    exactly one exchange, of a packet with class 0xE0, instruction 0x02,
    parameter-1 0x01 when display is requested and 0x00 otherwise,
    parameter-2 0x80 and 2 + 4L bytes of data: the segment count, every
    segment as four bytes that read back as the segment most significant
    byte first, and the network type. *)
Theorem account_query_packet {Device : Type}
    (exchange : Device -> Apdu -> Device * reply)
    (fromString : string -> option (list Z))
    path networkType display bipPath (d : Device) :
  fromString path = Some bipPath ->
  len bipPath <= 63 -> Forall u32 bipPath -> is_byte networkType ->
  exists apdu r,
    log (snd (run (getAccount Device exchange fromString path networkType
                     display) d)) = [(apdu, r)]
    /\ cla apdu = 0xE0 /\ ins apdu = 0x02
    /\ p1 apdu = (if display then 0x01 else 0x00)
    /\ p2 apdu = 0x80
    /\ data apdu
       = [len bipPath] ++ flat_map Buffer.be32 bipPath ++ [networkType]
    /\ len (data apdu) = 2 + 4 * len bipPath
    /\ Forall (fun segment =>
                 length (Buffer.be32 segment) = 4%nat
                 /\ Forall is_byte (Buffer.be32 segment)
                 /\ be_value (Buffer.be32 segment) = segment) bipPath.
Proof.
  intros Hpath HL Hu Hnet.
  rewrite (getAccount_run exchange fromString path networkType display
             bipPath d Hpath HL Hu Hnet).
  cbv zeta.
  destruct (exchange d (account_apdu bipPath networkType display))
    as [d' r].
  exists (account_apdu bipPath networkType display), r. cbn [snd log].
  repeat split; try reflexivity.
  - cbn [data account_apdu]. rewrite len_app, len_path_header.
    change (len [networkType]) with 1. lia.
  - rewrite Forall_forall in *. intros segment Hin.
    destruct (be32_big_endian segment (Hu segment Hin)) as [Hval Hbytes].
    auto.
Qed.

Lemma account_query_packet_witness :
  exists apdu r,
    log (snd (run (getAccount (list reply) scripted_exchange
                     sample_fromString sample_path 104 true)
                [Response (32 :: repeat 0xAB 32)])) = [(apdu, r)]
    /\ cla apdu = 0xE0 /\ ins apdu = 0x02
    /\ p1 apdu = (if true then 0x01 else 0x00)
    /\ p2 apdu = 0x80
    /\ data apdu
       = [len sample_bipPath] ++ flat_map Buffer.be32 sample_bipPath ++ [104]
    /\ len (data apdu) = 2 + 4 * len sample_bipPath
    /\ Forall (fun segment =>
                 length (Buffer.be32 segment) = 4%nat
                 /\ Forall is_byte (Buffer.be32 segment)
                 /\ be_value (Buffer.be32 segment) = segment) sample_bipPath.
Proof.
  apply (account_query_packet scripted_exchange sample_fromString
           sample_path 104 true sample_bipPath).
  - reflexivity.
  - vm_compute. discriminate.
  - repeat constructor; vm_compute; discriminate.
  - split; vm_compute; discriminate.
Defined.

Example account_packet_bytes :
  map fst (log (snd (run (getAccount (list reply) scripted_exchange
                            sample_fromString sample_path 104 true)
                       [Response (32 :: repeat 0xAB 32)])))
  = [ mkApdu 0xE0 0x02 0x01 0x80
        [ 5; 0x80; 0; 0; 0x2C; 0x80; 0; 0x10; 0xF7; 0x80; 0; 0; 0;
          0x80; 0; 0; 0; 0x80; 0; 0; 0; 104 ] ].
Proof. vm_compute. reflexivity. Qed.

(** C4, as the code has it. The serialized transaction is a string of hex
    digits and the splice works on its characters: the signed payload is the
    first 16 hex digits of the raw transaction (its first 8 bytes), then the
    first 128 hex digits of the final response (the 64-byte signature), then
    the signer's public key, then the raw transaction from hex digit
    16 + 128 + 64 = 208 on (from byte 104 on). Splicing a signature and a key
    into a raw transaction given by its bytes reproduces, byte for byte, the
    8 header bytes, the signature, the key and the bytes from offset 104. *)
Theorem signed_payload_splice {Device : Type}
    (exchange : Device -> Apdu -> Device * reply)
    (fromString : string -> option (list Z))
    (hexToUint8 : str -> completion (list Z))
    (createTransactionHash : str -> list Z -> completion str)
    fuel path transaction networkGenerationHash key (d : Device) w response :
  run (ledgerMessageHandler Device exchange fromString fuel path
         (Buffer.from_hex (networkGenerationHash
                             ++ skipn 216 (serialize transaction)))) d
  = (Normal (Some response), w) ->
  let signed_payload :=
    firstn 16 (serialize transaction)
      ++ firstn 128 (Buffer.toString_hex response)
      ++ key ++ skipn 208 (serialize transaction) in
  run (signTransaction Device exchange fromString hexToUint8
         createTransactionHash fuel path transaction networkGenerationHash
         key) d
  = ((let* generationHashBytes := hexToUint8 networkGenerationHash in
      let* transactionHash :=
        createTransactionHash signed_payload generationHashBytes in
      Normal {| payload := signed_payload;
                hash := transactionHash;
                signerPublicKey := key;
                signed_type := tx_type transaction;
                signed_networkType := tx_networkType transaction |}), w)
  /\ (forall raw keyBytes,
        serialize transaction = Buffer.toString_hex raw ->
        key = Buffer.toString_hex keyBytes ->
        signed_payload
        = Buffer.toString_hex
            (firstn 8 raw ++ firstn 64 response ++ keyBytes
               ++ skipn 104 raw)).
Proof.
  intros Hrun signed_payload. split.
  - rewrite signTransaction_run, Hrun. reflexivity.
  - intros raw keyBytes Hraw Hkey. subst signed_payload.
    rewrite Hraw, Hkey. apply spliced_bytes.
Qed.

Lemma signed_payload_splice_witness :
  exists response w,
    run (ledgerMessageHandler (list reply) scripted_exchange
           sample_fromString 300 sample_path
           (Buffer.from_hex (sample_generationHash
                               ++ skipn 216 (serialize sample_transaction))))
        [Response (sample_signature ++ [0x90; 0x00])]
    = (Normal (Some response), w)
    /\ fst (run (signTransaction (list reply) scripted_exchange
                   sample_fromString sample_hexToUint8
                   sample_createTransactionHash 300 sample_path
                   sample_transaction sample_generationHash
                   (Buffer.toString_hex sample_key))
              [Response (sample_signature ++ [0x90; 0x00])])
       = (let signed_payload :=
            firstn 16 (serialize sample_transaction)
              ++ firstn 128 (Buffer.toString_hex response)
              ++ Buffer.toString_hex sample_key
              ++ skipn 208 (serialize sample_transaction) in
          let* generationHashBytes :=
            sample_hexToUint8 sample_generationHash in
          let* transactionHash :=
            sample_createTransactionHash signed_payload generationHashBytes in
          Normal {| payload := signed_payload;
                    hash := transactionHash;
                    signerPublicKey := Buffer.toString_hex sample_key;
                    signed_type := tx_type sample_transaction;
                    signed_networkType := tx_networkType sample_transaction |}).
Proof.
  do 2 eexists. split.
  - vm_compute. reflexivity.
  - match goal with
    | |- fst ?lhs = _ =>
        refine (f_equal fst
                  (proj1 (signed_payload_splice scripted_exchange
                            sample_fromString sample_hexToUint8
                            sample_createTransactionHash 300 sample_path
                            sample_transaction sample_generationHash
                            (Buffer.toString_hex sample_key)
                            [Response (sample_signature ++ [0x90; 0x00])]
                            _ _ _)))
    end.
    vm_compute. reflexivity.
Defined.

(** The round trip on the sample transaction: the signed payload is the hex
    of 8 header bytes, the signature, the key and the bytes from 104 on. *)
Example sample_signed_payload :
  exists signed,
    fst (run (signTransaction (list reply) scripted_exchange
                sample_fromString sample_hexToUint8
                sample_createTransactionHash 300 sample_path
                sample_transaction sample_generationHash
                (Buffer.toString_hex sample_key))
           [Response (sample_signature ++ [0x90; 0x00])])
    = Normal signed
    /\ Buffer.from_hex (payload signed)
       = firstn 8 (counting 0 250) ++ sample_signature ++ sample_key
           ++ skipn 104 (counting 0 250).
Proof. eexists. split; vm_compute; reflexivity. Qed.

(** C4 as stated fails: the bytes of the signed payload are not the first
    16 bytes of the raw transaction, the signature, the key and the raw
    transaction from byte 16 + 128 + 64 on. *)
Lemma splice_not_at_byte_offsets :
  ~ exists signed,
      fst (run (signTransaction (list reply) scripted_exchange
                  sample_fromString sample_hexToUint8
                  sample_createTransactionHash 300 sample_path
                  sample_transaction sample_generationHash
                  (Buffer.toString_hex sample_key))
             [Response (sample_signature ++ [0x90; 0x00])])
      = Normal signed
      /\ Buffer.from_hex (payload signed)
         = spliced_bytes_as_claimed (counting 0 250) sample_signature
             sample_key.
Proof.
  intros (signed & Hrun & Hbytes). vm_compute in Hrun.
  injection Hrun as <-. apply (f_equal (@length Z)) in Hbytes.
  vm_compute in Hbytes. discriminate.
Qed.

(** * Further properties of the driver *)

(** ** Outcomes of the Buffer operations *)

Lemma normal_or_range_bind {A B} (m : completion A) (k : A -> completion B) :
  normal_or_range m -> (forall a, normal_or_range (k a)) ->
  normal_or_range (Js.bind m k).
Proof.
  intros [[a ->]| ->] Hk; [apply Hk | right; reflexivity].
Qed.

Lemma alloc_shape size : normal_or_range (Buffer.alloc size).
Proof.
  unfold Buffer.alloc. destruct (size <? 0); [right | left; eexists];
    reflexivity.
Qed.

Lemma checked_store_shape buf offset bytes :
  normal_or_range (Buffer.checked_store buf offset bytes).
Proof.
  unfold Buffer.checked_store.
  destruct ((offset <? 0) || (len buf <? offset + len bytes));
    [right | left; eexists]; reflexivity.
Qed.

Lemma writeInt8_shape buf value offset :
  normal_or_range (Buffer.writeInt8 buf value offset).
Proof.
  unfold Buffer.writeInt8.
  destruct ((value <? -128) || (127 <? value));
    [right; reflexivity | apply checked_store_shape].
Qed.

Lemma writeUInt8_shape buf value offset :
  normal_or_range (Buffer.writeUInt8 buf value offset).
Proof.
  unfold Buffer.writeUInt8.
  destruct ((value <? 0) || (255 <? value));
    [right; reflexivity | apply checked_store_shape].
Qed.

Lemma writeUInt32BE_shape buf value offset :
  normal_or_range (Buffer.writeUInt32BE buf value offset).
Proof.
  unfold Buffer.writeUInt32BE.
  destruct ((value <? 0) || (0xffffffff <? value));
    [right; reflexivity | apply checked_store_shape].
Qed.

Lemma copy_shape source target targetStart sourceStart sourceEnd :
  normal_or_range (Buffer.copy source target targetStart sourceStart sourceEnd).
Proof.
  unfold Buffer.copy.
  destruct ((targetStart <? 0) || (sourceStart <? 0)
            || (len source <? sourceStart) || (sourceEnd <? 0));
    [right; reflexivity|].
  destruct ((len target <=? targetStart) || (sourceEnd <=? sourceStart));
    left; eexists; reflexivity.
Qed.

Lemma write_segments_shape segments :
  forall buf index, normal_or_range (write_segments buf segments index).
Proof.
  induction segments as [|s rest IH]; intros buf index.
  - left. eexists. reflexivity.
  - cbn [write_segments]. apply normal_or_range_bind.
    + apply writeUInt32BE_shape.
    + intros b. apply IH.
Qed.

Lemma chunk_apdu_shape bipPath rawTx offset :
  normal_or_range (chunk_apdu bipPath rawTx offset).
Proof.
  unfold chunk_apdu. apply normal_or_range_bind.
  - destruct (offset =? 0); apply alloc_shape.
  - intros fresh. apply normal_or_range_bind.
    + destruct (offset =? 0); [|apply copy_shape].
      apply normal_or_range_bind; [apply writeInt8_shape|].
      intros d1. apply normal_or_range_bind; [apply write_segments_shape|].
      intros d2. apply copy_shape.
    + intros filled. left. eexists. reflexivity.
Qed.

(** A header is written in full only when every segment is in range. *)
Lemma write_segments_normal_u32 segments :
  forall buf index buf',
    write_segments buf segments index = Normal buf' -> Forall u32 segments.
Proof.
  induction segments as [|s rest IH]; intros buf index buf' H;
    [constructor|].
  cbn [write_segments] in H. unfold Buffer.writeUInt32BE in H.
  destruct ((s <? 0) || (0xffffffff <? s)) eqn:E; [discriminate|].
  destruct (Buffer.checked_store buf (1 + index * 4) (Buffer.be32 s))
    as [b| |]; try discriminate.
  cbn [Js.bind] in H. constructor; [unfold u32; lia | eapply IH; eassumption].
Qed.

Lemma chunk_apdu_first_normal_u32 bipPath rawTx apdu :
  chunk_apdu bipPath rawTx 0 = Normal apdu -> Forall u32 bipPath.
Proof.
  unfold chunk_apdu. cbn [Z.eqb]. intros H.
  destruct (Buffer.alloc _) as [fresh| |]; try discriminate.
  cbn [Js.bind] in H.
  destruct (Buffer.writeInt8 fresh (len bipPath) 0) as [d1| |];
    try discriminate. cbn [Js.bind] in H.
  destruct (write_segments d1 bipPath 0) as [d2| |] eqn:E;
    try discriminate.
  eapply write_segments_normal_u32; eassumption.
Qed.

Lemma chunk_loop_bad_segment bipPath rawTx fuel :
  ~ Forall u32 bipPath -> rawTx <> [] ->
  chunk_loop (S fuel) bipPath rawTx 0 [] = Throw RangeError.
Proof.
  intros Hbad Hne.
  assert (HN : 0 < len rawTx).
  { destruct rawTx; [congruence|]. rewrite len_cons.
    pose proof (len_nonneg rawTx). lia. }
  cbn [chunk_loop]. destruct (Z.eqb_spec 0 (len rawTx)) as [?|_]; [lia|].
  destruct (chunk_apdu_shape bipPath rawTx 0) as [[apdu Hok]|Herr].
  - apply chunk_apdu_first_normal_u32 in Hok. contradiction.
  - now rewrite Herr.
Qed.

Lemma Forall_u32_dec (l : list Z) : {Forall u32 l} + {~ Forall u32 l}.
Proof.
  apply Forall_dec. intros v. unfold u32.
  destruct (Z_le_dec 0 v); destruct (Z_le_dec v 0xffffffff);
    (left; lia) || (right; lia).
Qed.

(** X5. The loop that builds the plan stops on every path and payload:
    given fuel for one iteration per payload byte it ends with the offset at
    the payload length, or it throws a range error; it never runs on. *)
Theorem chunk_loop_never_runs_on bipPath rawTx fuel :
  (length rawTx <= fuel)%nat ->
  (exists plan, chunk_loop fuel bipPath rawTx 0 [] = Normal (plan, len rawTx))
  \/ chunk_loop fuel bipPath rawTx 0 [] = Throw RangeError.
Proof.
  intros Hfuel.
  destruct rawTx as [|b rest] eqn:Eraw.
  { left. exists []. destruct fuel; reflexivity. }
  rewrite <- Eraw in *.
  assert (Hne : rawTx <> []) by (subst; discriminate).
  destruct fuel as [|fuel]; [subst; simpl in Hfuel; lia|].
  destruct (Z_le_dec (len bipPath) 63) as [HL|HL].
  - destruct (Forall_u32_dec bipPath) as [Hu|Hu].
    + left. destruct (chunk_loop_plan bipPath rawTx (S fuel) HL Hu Hfuel)
        as (chunks & Hrun & _). eauto.
    + right. now apply chunk_loop_bad_segment.
  - right. apply chunk_loop_overflow; [lia | assumption].
Qed.

Lemma chunk_loop_never_runs_on_witness :
  (exists plan,
     chunk_loop 3 [0x100000000] [1; 2; 3] 0 [] = Normal (plan, len [1; 2; 3]))
  \/ chunk_loop 3 [0x100000000] [1; 2; 3] 0 [] = Throw RangeError.
Proof.
  apply (chunk_loop_never_runs_on [0x100000000] [1; 2; 3] 3).
  vm_compute. repeat constructor.
Defined.

(** ** Shape of the plan *)

Lemma greedy_bounds chunks :
  forall budget remaining,
    greedy budget remaining chunks ->
    match chunks with
    | [] => True
    | c :: cs =>
        0 < len c <= budget /\ Forall (fun c' => 0 < len c' <= 255) cs
    end.
Proof.
  induction chunks as [|c cs IH]; intros budget remaining Hg; [exact I|].
  destruct Hg as (Hlen & Hpos & Hrest). split; [lia|].
  specialize (IH _ _ Hrest). destruct cs as [|c' cs']; [constructor|].
  destruct IH as [Hc' Hcs']. constructor; assumption.
Qed.

(** X2. Every packet of a plan fits one APDU: it carries between 1 and 255
    bytes of data, the path header of the first packet included, under
    class 0xE0, instruction 0x04 and parameter-2 0x80. *)
Theorem plan_packets_fit bipPath rawTx fuel :
  len bipPath <= 63 -> Forall u32 bipPath -> (length rawTx <= fuel)%nat ->
  exists plan,
    chunk_loop fuel bipPath rawTx 0 [] = Normal (plan, len rawTx)
    /\ Forall (fun apdu =>
                 0 < len (data apdu) <= 255
                 /\ cla apdu = 0xE0 /\ ins apdu = 0x04 /\ p2 apdu = 0x80)
         plan.
Proof.
  intros HL Hu Hfuel. pose proof (len_nonneg bipPath) as HL0.
  destruct (chunk_loop_plan bipPath rawTx fuel HL Hu Hfuel)
    as (chunks & Hrun & _ & Hgreedy).
  exists (plan_of bipPath chunks). split; [exact Hrun|].
  apply greedy_bounds in Hgreedy.
  destruct chunks as [|c cs]; [constructor|].
  destruct Hgreedy as [Hc Hcs]. cbn [plan_of]. constructor.
  - cbn [data cla ins p2 first_apdu]. rewrite len_app, len_path_header.
    repeat split; try reflexivity; lia.
  - rewrite Forall_map. eapply Forall_impl; [|exact Hcs].
    intros c' Hc'. cbv beta in Hc'. cbn [data cla ins p2 next_apdu].
    repeat split; try reflexivity; lia.
Qed.

Lemma plan_packets_fit_witness :
  exists plan,
    chunk_loop 300 sample_bipPath (counting 0 300) 0 []
    = Normal (plan, len (counting 0 300))
    /\ Forall (fun apdu =>
                 0 < len (data apdu) <= 255
                 /\ cla apdu = 0xE0 /\ ins apdu = 0x04 /\ p2 apdu = 0x80)
         plan.
Proof.
  apply (plan_packets_fit sample_bipPath (counting 0 300) 300).
  - vm_compute. discriminate.
  - repeat constructor; vm_compute; discriminate.
  - vm_compute. repeat constructor.
Defined.

Lemma greedy_count chunks :
  forall remaining,
    greedy 255 remaining chunks -> len chunks = (remaining + 254) / 255.
Proof.
  induction chunks as [|c cs IH]; intros remaining Hg.
  - cbn in Hg. subst. reflexivity.
  - destruct Hg as (Hlen & Hpos & Hrest).
    pose proof (greedy_length _ _ _ Hrest) as Hge.
    pose proof (len_nonneg cs) as Hcs.
    rewrite len_cons, (IH _ Hrest).
    destruct (Z_le_dec remaining 255) as [Hsmall|Hbig].
    + replace (remaining - len c) with 0 by lia.
      change ((0 + 254) / 255) with 0.
      apply Z.div_unique with (r := remaining - 1); lia.
    + replace (len c) with 255 by lia.
      replace (remaining + 254) with ((remaining - 255 + 254) + 1 * 255)
        by lia.
      rewrite Z.div_add by lia. lia.
Qed.

(** X3. The number of packets is fixed by the payload length N and the
    number of segments L: none for an empty payload, otherwise one first
    packet for the first min(N, 254 - 4L) bytes and one more packet for
    every started block of 255 bytes after them. *)
Theorem plan_packet_count bipPath rawTx fuel :
  len bipPath <= 63 -> Forall u32 bipPath -> (length rawTx <= fuel)%nat ->
  exists plan,
    chunk_loop fuel bipPath rawTx 0 [] = Normal (plan, len rawTx)
    /\ len plan
       = if len rawTx =? 0 then 0
         else 1 + (len rawTx - Z.min (len rawTx) (254 - 4 * len bipPath)
                   + 254) / 255.
Proof.
  intros HL Hu Hfuel.
  destruct (chunk_loop_plan bipPath rawTx fuel HL Hu Hfuel)
    as (chunks & Hrun & Hcat & Hgreedy).
  exists (plan_of bipPath chunks). split; [exact Hrun|].
  unfold len at 1. rewrite length_plan_of. fold (len chunks).
  destruct chunks as [|c cs].
  - cbn in Hgreedy. rewrite Hgreedy. reflexivity.
  - destruct Hgreedy as (Hlen & Hpos & Hrest).
    destruct (Z.eqb_spec (len rawTx) 0) as [H0|_]; [lia|].
    rewrite len_cons, (greedy_count _ _ Hrest).
    replace (255 - 1 - 4 * len bipPath) with (254 - 4 * len bipPath) in Hlen
      by lia.
    now rewrite Hlen.
Qed.

Lemma plan_packet_count_witness :
  exists plan,
    chunk_loop 600 three_segments (counting 0 600) 0 []
    = Normal (plan, len (counting 0 600))
    /\ len plan
       = if len (counting 0 600) =? 0 then 0
         else 1 + (len (counting 0 600)
                   - Z.min (len (counting 0 600))
                       (254 - 4 * len three_segments)
                   + 254) / 255.
Proof.
  apply (plan_packet_count three_segments (counting 0 600) 600).
  - vm_compute. discriminate.
  - repeat constructor; vm_compute; discriminate.
  - vm_compute. repeat constructor.
Defined.

Lemma greedy_next_positive budget remaining c cs :
  greedy budget remaining (c :: cs) -> cs <> [] ->
  len c = budget /\ budget < remaining.
Proof.
  intros (Hlen & Hpos & Hrest) Hne.
  destruct cs as [|c' cs']; [congruence|].
  destruct Hrest as (Hlen' & Hpos' & _). lia.
Qed.

(** A later slice is short of 255 bytes exactly when it is the last one and
    the bytes left for the later slices are no multiple of 255. *)
Lemma greedy_full chunks :
  forall remaining i c,
    greedy 255 remaining chunks ->
    nth_error chunks i = Some c ->
    (len c <? 255)
    = negb ((S i <? length chunks)%nat || (remaining mod 255 =? 0)).
Proof.
  induction chunks as [|c0 cs IH]; intros remaining i c Hg Hi.
  - destruct i; discriminate.
  - destruct cs as [|c1 cs'] eqn:Ecs.
    + destruct Hg as (Hlen & Hpos & Hrest). cbn in Hrest.
      destruct i as [|j]; [|destruct j; discriminate].
      injection Hi as <-. cbn [length Nat.ltb Nat.leb orb].
      destruct (Z.eq_dec remaining 255) as [->|Hne].
      * replace (len c0) with 255 by lia. reflexivity.
      * rewrite Z.mod_small by lia.
        destruct (Z.eqb_spec remaining 0); [lia|].
        destruct (Z.ltb_spec (len c0) 255); [reflexivity | lia].
    + rewrite <- Ecs in *.
      assert (Hne : cs <> []) by (subst cs; discriminate).
      destruct (greedy_next_positive _ _ _ _ Hg Hne) as [Hfull Hmore].
      destruct Hg as (Hlen & Hpos & Hrest).
      destruct i as [|j].
      * injection Hi as <-. rewrite Hfull.
        subst cs. reflexivity.
      * cbn [nth_error] in Hi.
        rewrite (IH (remaining - len c0) j c Hrest Hi), Hfull.
        replace remaining with ((remaining - 255) + 1 * 255) at 2 by lia.
        rewrite Z.mod_add by lia. reflexivity.
Qed.

(** X4. Parameter-1 of every packet, read off the payload length N and the
    first budget B = 254 - 4L. Bit 0x01 is set on every packet but the
    first. Bit 0x80 is set on every packet that is not the last, and on the
    last packet exactly when the payload ends on a chunk boundary (N = B, or
    N - B a positive multiple of 255); otherwise the last packet has it
    clear. *)
Theorem plan_p1_flags bipPath rawTx fuel :
  len bipPath <= 63 -> Forall u32 bipPath -> (length rawTx <= fuel)%nat ->
  exists plan,
    chunk_loop fuel bipPath rawTx 0 [] = Normal (plan, len rawTx)
    /\ forall i apdu,
         nth_error plan i = Some apdu ->
         p1 apdu
         = (if (i =? 0)%nat then 0x00 else 0x01)
           + (if (S i <? length plan)%nat
                 || ((254 - 4 * len bipPath <=? len rawTx)
                     && ((len rawTx - (254 - 4 * len bipPath)) mod 255 =? 0))
              then 0x80 else 0x00).
Proof.
  intros HL Hu Hfuel. pose proof (len_nonneg bipPath) as HL0.
  destruct (chunk_loop_plan bipPath rawTx fuel HL Hu Hfuel)
    as (chunks & Hrun & _ & Hgreedy).
  exists (plan_of bipPath chunks). split; [exact Hrun|].
  replace (255 - 1 - 4 * len bipPath) with (254 - 4 * len bipPath) in Hgreedy
    by lia.
  set (B := 254 - 4 * len bipPath) in *.
  intros i apdu Hi. destruct chunks as [|c cs]; [destruct i; discriminate|].
  cbn [plan_of] in *. destruct i as [|j].
  - injection Hi as <-. cbn [p1 first_apdu Nat.eqb].
    replace (255 - 1 - 4 * len bipPath) with B by (unfold B; lia).
    destruct cs as [|c' cs'] eqn:Ecs.
    + destruct Hgreedy as (Hlen & Hpos & Hrest). cbn in Hrest.
      cbn [length map Nat.ltb Nat.leb orb].
      destruct (Z.ltb_spec (len c) B) as [Hlt|Hge].
      * destruct (Z.leb_spec B (len rawTx)); [lia | reflexivity].
      * assert (len rawTx = B) as -> by lia.
        rewrite Z.leb_refl, Z.sub_diag. reflexivity.
    + rewrite <- Ecs in *.
      assert (Hne : cs <> []) by (subst cs; discriminate).
      destruct (greedy_next_positive _ _ _ _ Hgreedy Hne) as [Hfull _].
      rewrite Hfull, Z.ltb_irrefl. subst cs. reflexivity.
  - cbn [nth_error] in Hi. cbn [Nat.eqb].
    destruct (nth_error cs j) as [c'|] eqn:Hj.
    + rewrite (map_nth_error next_apdu _ _ Hj) in Hi. injection Hi as <-.
      assert (Hne : cs <> []) by (intros ->; destruct j; discriminate).
      destruct (greedy_next_positive _ _ _ _ Hgreedy Hne) as [Hfull Hmore].
      destruct Hgreedy as (_ & _ & Hrest). rewrite Hfull in Hrest.
      cbn [p1 next_apdu]. rewrite (greedy_full _ _ _ _ Hrest Hj).
      cbn [length]. rewrite length_map.
      change (S (S j) <? S (length cs))%nat with (S j <? length cs)%nat.
      destruct (Z.leb_spec B (len rawTx)); [|lia]. cbn [andb].
      destruct ((S j <? length cs)%nat || ((len rawTx - B) mod 255 =? 0));
        reflexivity.
    + apply nth_error_None in Hj.
      assert (Hsome : nth_error (map next_apdu cs) j <> None)
        by (rewrite Hi; discriminate).
      apply nth_error_Some in Hsome. rewrite length_map in Hsome. lia.
Qed.

Lemma plan_p1_flags_witness :
  exists plan,
    chunk_loop 497 three_segments (counting 0 497) 0 []
    = Normal (plan, len (counting 0 497))
    /\ forall i apdu,
         nth_error plan i = Some apdu ->
         p1 apdu
         = (if (i =? 0)%nat then 0x00 else 0x01)
           + (if (S i <? length plan)%nat
                 || ((254 - 4 * len three_segments <=? len (counting 0 497))
                     && ((len (counting 0 497)
                          - (254 - 4 * len three_segments)) mod 255 =? 0))
              then 0x80 else 0x00).
Proof.
  apply (plan_p1_flags three_segments (counting 0 497) 497).
  - vm_compute. discriminate.
  - repeat constructor; vm_compute; discriminate.
  - vm_compute. repeat constructor.
Defined.

(** ** Exchanges of the chunked transfer *)

Section Transfers.

Context {Device : Type}.
Variable exchange : Device -> Apdu -> Device * reply.
Variable fromString : string -> option (list Z).

Local Abbreviation handler := (ledgerMessageHandler Device exchange fromString).

(** The sending loop walks the plan from its head and stops at the first
    rejected exchange. *)
Lemma send_all_prefix plan :
  forall response (w : World Device),
  exists sent,
    log (snd (send_all Device exchange plan response w)) = log w ++ sent
    /\ fst (send_all Device exchange plan response w)
       = final_outcome sent response
    /\ map fst sent = firstn (length sent) plan
    /\ (forall i a r,
          nth_error sent i = Some (a, r) -> (S i < length sent)%nat ->
          exists bytes, r = Response bytes)
    /\ ((length sent < length plan)%nat ->
        exists a code, last_entry sent = Some (a, Failure code)).
Proof.
  induction plan as [|a rest IH]; intros response w.
  - exists []. cbn. rewrite app_nil_r. repeat split; auto.
    + intros i a r Hi. destruct i; discriminate.
    + lia.
  - cbn [send_all]. unfold sbind, transport_send.
    destruct (exchange (device w) a) as [d' [code|bytes]].
    + exists [(a, Failure code)]. cbn. repeat split.
      * intros i a' r Hi Hlt. lia.
      * intros _. eauto.
    + destruct (IH bytes {| device := d';
                            log := log w ++ [(a, Response bytes)] |})
        as (sent & Hlog & Hout & Hpre & Hmid & Hstop).
      exists ((a, Response bytes) :: sent).
      rewrite Hlog, Hout, final_outcome_cons. cbn [log].
      repeat split.
      * now rewrite <- app_assoc.
      * cbn [map fst length firstn]. now rewrite <- Hpre.
      * intros i a' r Hi Hlt. destruct i as [|j].
        -- injection Hi as _ <-. eauto.
        -- cbn [nth_error] in Hi. cbn [length] in Hlt.
           apply (Hmid j a' r Hi). lia.
      * intros Hlt. cbn [length] in Hlt.
        destruct Hstop as (a' & code & Hlast); [lia|].
        exists a', code. destruct sent as [|x sent']; [discriminate|].
        exact Hlast.
Qed.

(** The handler, stage by stage. *)
Lemma handler_steps fuel path rawTx d :
  run (handler fuel path rawTx) d
  = match fromString path with
    | None => (Throw PathError, {| device := d; log := [] |})
    | Some bipPath =>
        match chunk_loop fuel bipPath rawTx 0 [] with
        | Normal plan =>
            let (c, w) :=
              send_all Device exchange (fst plan) []
                {| device := d; log := [] |} in
            (match c with
             | Normal final =>
                 if str_eqb (Buffer.toString final) CONTINUE_SENDING
                 then Normal None else Normal (Some final)
             | Throw e => Throw e
             | OutOfFuel => OutOfFuel
             end, w)
        | Throw e => (Throw e, {| device := d; log := [] |})
        | OutOfFuel => (OutOfFuel, {| device := d; log := [] |})
        end
    end.
Proof.
  unfold run, ledgerMessageHandler, sbind, lift, bipPath_of.
  destruct (fromString path) as [bipPath|]; [|reflexivity].
  destruct (chunk_loop fuel bipPath rawTx 0 []) as [plan|e|];
    try reflexivity.
  change (Buffer.alloc 0) with (@Normal Buffer.t []). cbv iota beta.
  destruct (send_all Device exchange (fst plan) [] _) as [[final|e|] w];
    try reflexivity.
  destruct (str_eqb (Buffer.toString final) CONTINUE_SENDING); reflexivity.
Qed.

End Transfers.

(** X1. The packets go out in plan order and a rejected exchange stops the
    transfer: the packets exchanged are an initial segment of the plan,
    every exchange before the last was answered, and when fewer packets
    were exchanged than planned the last exchange was rejected and its error
    is what the handler throws. *)
Theorem transfer_stops_at_failure {Device : Type}
    (exchange : Device -> Apdu -> Device * reply)
    (fromString : string -> option (list Z))
    fuel path rawTx bipPath (d : Device) :
  fromString path = Some bipPath ->
  len bipPath <= 63 -> Forall u32 bipPath -> (length rawTx <= fuel)%nat ->
  let (result, w) :=
    run (ledgerMessageHandler Device exchange fromString fuel path rawTx) d in
  exists chunks,
    concat chunks = rawTx
    /\ map fst (log w) = firstn (length (log w)) (plan_of bipPath chunks)
    /\ (forall i a r,
          nth_error (log w) i = Some (a, r) -> (S i < length (log w))%nat ->
          exists bytes, r = Response bytes)
    /\ ((length (log w) < length (plan_of bipPath chunks))%nat ->
        exists a code,
          last_entry (log w) = Some (a, Failure code)
          /\ result = Throw (TransportError code)).
Proof.
  intros Hpath HL Hu Hfuel.
  destruct (chunk_loop_plan bipPath rawTx fuel HL Hu Hfuel)
    as (chunks & Hrun & Hcat & _).
  rewrite (handler_steps exchange fromString), Hpath, Hrun. cbn [fst].
  destruct (send_all_prefix exchange (plan_of bipPath chunks) []
              {| device := d; log := [] |})
    as (sent & Hlog & Hout & Hpre & Hmid & Hstop).
  destruct (send_all Device exchange (plan_of bipPath chunks) [] _)
    as [c w]. cbn [fst snd log app] in *. subst sent.
  exists chunks. repeat split; try assumption.
  intros Hlt. destruct (Hstop Hlt) as (a & code & Hlast).
  exists a, code. split; [exact Hlast|].
  rewrite Hout. unfold final_outcome. now rewrite Hlast.
Qed.

Lemma transfer_stops_at_failure_witness :
  let (result, w) :=
    run (ledgerMessageHandler (list reply) scripted_exchange
           sample_fromString 600 sample_path (counting 0 600))
        [Response [1; 2]; Failure 0x6985; Response [3]] in
  exists chunks,
    concat chunks = counting 0 600
    /\ map fst (log w) = firstn (length (log w)) (plan_of sample_bipPath chunks)
    /\ (forall i a r,
          nth_error (log w) i = Some (a, r) -> (S i < length (log w))%nat ->
          exists bytes, r = Response bytes)
    /\ ((length (log w) < length (plan_of sample_bipPath chunks))%nat ->
        exists a code,
          last_entry (log w) = Some (a, Failure code)
          /\ result = Throw (TransportError code)).
Proof.
  apply (transfer_stops_at_failure scripted_exchange sample_fromString
           600 sample_path (counting 0 600) sample_bipPath).
  - reflexivity.
  - vm_compute. discriminate.
  - repeat constructor; vm_compute; discriminate.
  - vm_compute. repeat constructor.
Defined.

Example second_exchange_rejected :
  let (result, w) :=
    run (ledgerMessageHandler (list reply) scripted_exchange
           sample_fromString 600 sample_path (counting 0 600))
        [Response [1; 2]; Failure 0x6985; Response [3]] in
  result = Throw (TransportError 0x6985) /\ length (log w) = 2%nat.
Proof. vm_compute. split; reflexivity. Qed.

(** X11. Nothing reaches the device unless the whole plan could be built:
    whenever the chunked transfer made an exchange, the path was accepted by
    the parser, had at most 63 segments, each an unsigned 32-bit integer,
    and the payload was not empty. *)
Theorem exchange_only_after_plan {Device : Type}
    (exchange : Device -> Apdu -> Device * reply)
    (fromString : string -> option (list Z))
    fuel path rawTx (d : Device) :
  log (snd (run (ledgerMessageHandler Device exchange fromString fuel path
                   rawTx) d)) <> [] ->
  exists bipPath,
    fromString path = Some bipPath
    /\ len bipPath <= 63 /\ Forall u32 bipPath /\ rawTx <> [].
Proof.
  rewrite (handler_steps exchange fromString).
  destruct (fromString path) as [bipPath|]; [|intros H; now contradiction H].
  destruct (chunk_loop fuel bipPath rawTx 0 []) as [[plan offset]|e|] eqn:Hrun;
    try (intros H; now contradiction H).
  intros Hlog. exists bipPath. split; [reflexivity|].
  assert (Hne : rawTx <> []).
  { intros ->. destruct fuel; cbn in Hrun; injection Hrun as <- _;
      now contradiction Hlog. }
  destruct fuel as [|fuel].
  { destruct rawTx as [|b rest]; [congruence|]. cbn in Hrun.
    unfold len in Hrun. simpl length in Hrun.
    destruct (Z.eqb_spec 0 (Z.of_nat (S (length rest)))); [lia|discriminate]. }
  repeat split; try assumption.
  - destruct (Z_le_dec (len bipPath) 63) as [HL|HL]; [assumption|].
    rewrite chunk_loop_overflow in Hrun by (assumption || lia). discriminate.
  - destruct (Forall_u32_dec bipPath) as [Hu|Hu]; [assumption|].
    rewrite chunk_loop_bad_segment in Hrun by assumption. discriminate.
Qed.

Lemma exchange_only_after_plan_witness :
  exists bipPath,
    sample_fromString sample_path = Some bipPath
    /\ len bipPath <= 63 /\ Forall u32 bipPath /\ counting 0 300 <> [].
Proof.
  apply (exchange_only_after_plan scripted_exchange sample_fromString 300
           sample_path (counting 0 300) [Response [1]; Response [2]]).
  vm_compute. discriminate.
Defined.

(** X6. signTransaction fails with the chunked transfer: a rejected
    exchange surfaces as the transport's error, and a final response that
    is the marker "0x9000" leaves no response to read the signature from,
    which is a TypeError. No signed transaction is produced in either
    case. *)
Theorem sign_fails_with_transfer {Device : Type}
    (exchange : Device -> Apdu -> Device * reply)
    (fromString : string -> option (list Z))
    (hexToUint8 : str -> completion (list Z))
    (createTransactionHash : str -> list Z -> completion str)
    fuel path transaction networkGenerationHash key bipPath (d : Device) :
  fromString path = Some bipPath ->
  len bipPath <= 63 -> Forall u32 bipPath ->
  (length (Buffer.from_hex (networkGenerationHash
                              ++ skipn 216 (serialize transaction)))
   <= fuel)%nat ->
  let (result, w) :=
    run (signTransaction Device exchange fromString hexToUint8
           createTransactionHash fuel path transaction networkGenerationHash
           key) d in
  (forall a code,
     last_entry (log w) = Some (a, Failure code) ->
     result = Throw (TransportError code))
  /\ (forall a,
        last_entry (log w)
        = Some (a, Response [0x30; 0x78; 0x39; 0x30; 0x30; 0x30]) ->
        result = Throw TypeError).
Proof.
  intros Hpath HL Hu Hfuel.
  set (rawTx := Buffer.from_hex _) in Hfuel.
  destruct (chunk_loop_plan bipPath rawTx fuel HL Hu Hfuel)
    as (chunks & Hrun & _).
  destruct (handler_run exchange fromString fuel path rawTx bipPath _ _ d
              Hpath Hrun) as [Hres _].
  rewrite signTransaction_run. fold rawTx.
  destruct (run (ledgerMessageHandler Device exchange fromString fuel path
                   rawTx) d) as [hres w] eqn:Hh.
  cbn [fst snd] in Hres. unfold final_outcome in Hres.
  destruct hres as [[response|]|e|]; cbv beta iota; split;
    intros a; intros;
    match goal with Hlast : last_entry _ = _ |- _ => rewrite Hlast in Hres end;
    vm_compute in Hres; congruence.
Qed.

Lemma sign_fails_with_transfer_witness :
  let (result, w) :=
    run (signTransaction (list reply) scripted_exchange sample_fromString
           sample_hexToUint8 sample_createTransactionHash 300 sample_path
           sample_transaction sample_generationHash
           (Buffer.toString_hex sample_key))
        [Response [0x30; 0x78; 0x39; 0x30; 0x30; 0x30]] in
  (forall a code,
     last_entry (log w) = Some (a, Failure code) ->
     result = Throw (TransportError code))
  /\ (forall a,
        last_entry (log w)
        = Some (a, Response [0x30; 0x78; 0x39; 0x30; 0x30; 0x30]) ->
        result = Throw TypeError).
Proof.
  apply (sign_fails_with_transfer scripted_exchange sample_fromString
           sample_hexToUint8 sample_createTransactionHash 300 sample_path
           sample_transaction sample_generationHash
           (Buffer.toString_hex sample_key) sample_bipPath).
  - reflexivity.
  - vm_compute. discriminate.
  - repeat constructor; vm_compute; discriminate.
  - vm_compute. repeat constructor.
Defined.

Example sign_on_marker :
  fst (run (signTransaction (list reply) scripted_exchange sample_fromString
              sample_hexToUint8 sample_createTransactionHash 300 sample_path
              sample_transaction sample_generationHash
              (Buffer.toString_hex sample_key))
         [Response [0x30; 0x78; 0x39; 0x30; 0x30; 0x30]])
  = Throw TypeError.
Proof. vm_compute. reflexivity. Qed.

(** ** Hex strings in signTransaction *)

Lemma Forall_firstn {A} (P : A -> Prop) n :
  forall l, Forall P l -> Forall P (firstn n l).
Proof.
  induction n as [|n IH]; intros l Hl; [constructor|].
  destruct Hl; cbn [firstn]; constructor; auto.
Qed.


Lemma firstn_app_len {A} (a r : list A) n :
  length a = n -> firstn n (a ++ r) = a.
Proof. intros <-. apply firstn_app_exact. Qed.

Lemma skipn_app_len {A} (a r : list A) n :
  length a = n -> skipn n (a ++ r) = r.
Proof. intros <-. apply skipn_app_exact. Qed.

Lemma length_toString_hex buf :
  length (Buffer.toString_hex buf) = (2 * length buf)%nat.
Proof.
  induction buf as [|b buf IH]; [reflexivity|].
  unfold Buffer.toString_hex in *. cbn [flat_map app length]. lia.
Qed.

Lemma hex_value_digit d :
  0 <= d <= 15 -> Buffer.hex_value (Buffer.hex_digit d) = Some d.
Proof.
  intros Hd. unfold Buffer.hex_digit, Buffer.hex_value.
  destruct (Z.ltb_spec d 10).
  - destruct (Z.leb_spec 48 (48 + d)); [|lia].
    destruct (Z.leb_spec (48 + d) 57); [|lia].
    cbn [andb]. f_equal. lia.
  - destruct (Z.leb_spec 48 (87 + d)); [|lia].
    destruct (Z.leb_spec (87 + d) 57); [lia|].
    destruct (Z.leb_spec 97 (87 + d)); [|lia].
    destruct (Z.leb_spec (87 + d) 102); [|lia].
    cbn [andb]. f_equal. lia.
Qed.

(** Decoding the hex of a buffer gives the buffer back. *)
Lemma from_hex_toString_hex buf :
  Forall is_byte buf -> Buffer.from_hex (Buffer.toString_hex buf) = buf.
Proof.
  induction 1 as [|b buf Hb Hbuf IH]; [reflexivity|].
  unfold is_byte in Hb.
  change (Buffer.toString_hex (b :: buf))
    with (Buffer.hex_digit (b / 16) :: Buffer.hex_digit (b mod 16)
            :: Buffer.toString_hex buf).
  cbn [Buffer.from_hex].
  rewrite !hex_value_digit by (Z.div_mod_to_equations; lia).
  rewrite IH. f_equal. Z.div_mod_to_equations. lia.
Qed.

Lemma counting_bytes start n : Forall is_byte (counting start n).
Proof.
  unfold counting. apply Forall_map, Forall_forall. intros i _.
  unfold is_byte. pose proof (Z.mod_pos_bound (start + Z.of_nat i) 256).
  lia.
Qed.



(** X8. The splice is in place. When the serialized transaction has at
    least 208 hex digits, the final response at least 64 bytes and the
    signer's public key 64 hex digits, the signed payload is as long as the
    serialized transaction and differs from it only in digits 16 to 207:
    digits 16 to 143 are the hex of the first 64 response bytes, digits 144
    to 207 are the key. None of the three lengths is checked by the code. *)
Theorem signed_payload_in_place {Device : Type}
    (exchange : Device -> Apdu -> Device * reply)
    (fromString : string -> option (list Z))
    (hexToUint8 : str -> completion (list Z))
    (createTransactionHash : str -> list Z -> completion str)
    fuel path transaction networkGenerationHash key (d : Device)
    w response signed :
  run (ledgerMessageHandler Device exchange fromString fuel path
         (Buffer.from_hex (networkGenerationHash
                             ++ skipn 216 (serialize transaction)))) d
  = (Normal (Some response), w) ->
  fst (run (signTransaction Device exchange fromString hexToUint8
              createTransactionHash fuel path transaction
              networkGenerationHash key) d)
  = Normal signed ->
  (208 <= length (serialize transaction))%nat ->
  (64 <= length response)%nat ->
  length key = 64%nat ->
  length (payload signed) = length (serialize transaction)
  /\ firstn 16 (payload signed) = firstn 16 (serialize transaction)
  /\ firstn 128 (skipn 16 (payload signed))
     = Buffer.toString_hex (firstn 64 response)
  /\ firstn 64 (skipn 144 (payload signed)) = key
  /\ skipn 208 (payload signed) = skipn 208 (serialize transaction).
Proof.
  intros Hrun Hsign Hraw Hresp Hkey.
  rewrite signTransaction_run, Hrun in Hsign. cbn [fst] in Hsign.
  cbv zeta in Hsign.
  destruct (hexToUint8 networkGenerationHash) as [g| |]; try discriminate.
  cbn [Js.bind] in Hsign.
  destruct (createTransactionHash _ g) as [h| |]; try discriminate.
  cbn [Js.bind] in Hsign. injection Hsign as <-. cbn [payload].
  unfold spliced.
  set (raw := serialize transaction) in *.
  assert (Hsig : firstn 128 (Buffer.toString_hex response)
                 = Buffer.toString_hex (firstn 64 response))
    by apply (firstn_toString_hex 64).
  rewrite Hsig.
  set (a := firstn 16 raw). set (b := Buffer.toString_hex (firstn 64 response)).
  set (c := skipn 208 raw).
  assert (Ha : length a = 16%nat)
    by (unfold a; rewrite length_firstn; lia).
  assert (Hb : length b = 128%nat)
    by (unfold b; rewrite length_toString_hex, length_firstn; lia).
  assert (Hc : length c = (length raw - 208)%nat)
    by (unfold c; apply length_skipn).
  repeat split.
  - rewrite !length_app. lia.
  - now apply firstn_app_len.
  - rewrite (skipn_app_len a _ 16 Ha). now apply firstn_app_len.
  - rewrite (app_assoc a b).
    rewrite (skipn_app_len (a ++ b) _ 144) by (rewrite length_app; lia).
    now apply firstn_app_len.
  - rewrite (app_assoc a b), (app_assoc (a ++ b) key).
    apply skipn_app_len. rewrite !length_app. lia.
Qed.

Lemma signed_payload_in_place_witness :
  exists response w signed,
    run (ledgerMessageHandler (list reply) scripted_exchange
           sample_fromString 300 sample_path
           (Buffer.from_hex (sample_generationHash
                               ++ skipn 216 (serialize sample_transaction))))
        [Response (sample_signature ++ [0x90; 0x00])]
    = (Normal (Some response), w)
    /\ fst (run (signTransaction (list reply) scripted_exchange
                   sample_fromString sample_hexToUint8
                   sample_createTransactionHash 300 sample_path
                   sample_transaction sample_generationHash
                   (Buffer.toString_hex sample_key))
              [Response (sample_signature ++ [0x90; 0x00])])
       = Normal signed
    /\ length (payload signed) = length (serialize sample_transaction)
    /\ firstn 16 (payload signed) = firstn 16 (serialize sample_transaction)
    /\ firstn 128 (skipn 16 (payload signed))
       = Buffer.toString_hex (firstn 64 response)
    /\ firstn 64 (skipn 144 (payload signed))
       = Buffer.toString_hex sample_key
    /\ skipn 208 (payload signed) = skipn 208 (serialize sample_transaction).
Proof.
  do 3 eexists. split; [vm_compute; reflexivity|].
  split; [vm_compute; reflexivity|].
  eapply (signed_payload_in_place scripted_exchange sample_fromString
            sample_hexToUint8 sample_createTransactionHash 300 sample_path
            sample_transaction sample_generationHash
            (Buffer.toString_hex sample_key)
            [Response (sample_signature ++ [0x90; 0x00])]).
  - vm_compute. reflexivity.
  - vm_compute. reflexivity.
  - vm_compute. lia.
  - vm_compute. lia.
  - vm_compute. reflexivity.
Defined.

(** ** The account query beyond its usual inputs *)

Lemma account_data_shape bipPath networkType :
  normal_or_range
    (let* fresh := Buffer.alloc (1 + len bipPath * 4 + 1) in
     let* d1 := Buffer.writeInt8 fresh (len bipPath) 0 in
     let* d2 := write_segments d1 bipPath 0 in
     Buffer.writeUInt8 d2 networkType (1 + len bipPath * 4)).
Proof.
  apply normal_or_range_bind; [apply alloc_shape|]. intros fresh.
  apply normal_or_range_bind; [apply writeInt8_shape|]. intros d1.
  apply normal_or_range_bind; [apply write_segments_shape|]. intros d2.
  apply writeUInt8_shape.
Qed.

Lemma account_data_normal bipPath networkType filled :
  (let* fresh := Buffer.alloc (1 + len bipPath * 4 + 1) in
   let* d1 := Buffer.writeInt8 fresh (len bipPath) 0 in
   let* d2 := write_segments d1 bipPath 0 in
   Buffer.writeUInt8 d2 networkType (1 + len bipPath * 4))
  = Normal filled ->
  len bipPath <= 127 /\ Forall u32 bipPath /\ is_byte networkType.
Proof.
  intros H.
  destruct (Buffer.alloc _) as [fresh| |]; try discriminate.
  cbn [Js.bind] in H. unfold Buffer.writeInt8 in H.
  destruct ((len bipPath <? -128) || (127 <? len bipPath)) eqn:E1;
    [discriminate|].
  destruct (Buffer.checked_store fresh 0 _) as [d1| |]; try discriminate.
  cbn [Js.bind] in H.
  destruct (write_segments d1 bipPath 0) as [d2| |] eqn:E2;
    try discriminate.
  cbn [Js.bind] in H. unfold Buffer.writeUInt8 in H.
  destruct ((networkType <? 0) || (255 <? networkType)) eqn:E3;
    [discriminate|].
  repeat split; try lia.
  eapply write_segments_normal_u32; eassumption.
Qed.

Lemma account_data_wide bipPath networkType :
  len bipPath <= 127 -> Forall u32 bipPath -> is_byte networkType ->
  (let* fresh := Buffer.alloc (1 + len bipPath * 4 + 1) in
   let* d1 := Buffer.writeInt8 fresh (len bipPath) 0 in
   let* d2 := write_segments d1 bipPath 0 in
   Buffer.writeUInt8 d2 networkType (1 + len bipPath * 4))
  = Normal (path_header bipPath ++ [networkType]).
Proof.
  intros HL Hu Hnet. pose proof (len_nonneg bipPath) as HL0.
  unfold Buffer.alloc.
  destruct (1 + len bipPath * 4 + 1 <? 0) eqn:E; [lia|]. cbn [Js.bind].
  replace (Z.to_nat (1 + len bipPath * 4 + 1))
    with (1 + (4 * length bipPath + 1))%nat by (unfold len; lia).
  rewrite !repeat_app. cbn [repeat app].
  unfold Buffer.writeInt8.
  destruct ((len bipPath <? -128) || (127 <? len bipPath)) eqn:E1; [lia|].
  rewrite (Z.mod_small (len bipPath) 256) by lia.
  change (Buffer.checked_store (0 :: repeat 0 (4 * length bipPath) ++ [0]) 0
            [len bipPath])
    with (Buffer.checked_store ([] ++ [0] ++ repeat 0 (4 * length bipPath)
                                  ++ [0]) (len (@nil Z)) [len bipPath]).
  rewrite checked_store_splice by reflexivity. cbn [Js.bind app].
  change (len bipPath :: repeat 0 (4 * length bipPath) ++ [0])
    with ([len bipPath] ++ repeat 0 (4 * length bipPath) ++ [0]).
  rewrite write_segments_splice;
    [| assumption | reflexivity | apply repeat_length].
  cbn [Js.bind]. rewrite app_assoc.
  change ([len bipPath] ++ flat_map Buffer.be32 bipPath)
    with (path_header bipPath).
  unfold Buffer.writeUInt8. unfold is_byte in Hnet.
  destruct ((networkType <? 0) || (255 <? networkType)) eqn:E2; [lia|].
  replace (1 + len bipPath * 4) with (len (path_header bipPath))
    by (rewrite len_path_header; lia).
  rewrite <- (app_nil_r [0]).
  rewrite checked_store_splice by reflexivity. now rewrite app_nil_r.
Qed.

Section Accounts.

Context {Device : Type}.
Variable exchange : Device -> Apdu -> Device * reply.
Variable fromString : string -> option (list Z).

Local Abbreviation account := (getAccount Device exchange fromString).

(** The account query in terms of the data it writes. *)
Lemma getAccount_steps path networkType display bipPath d :
  fromString path = Some bipPath ->
  run (account path networkType display) d
  = match (let* fresh := Buffer.alloc (1 + len bipPath * 4 + 1) in
           let* d1 := Buffer.writeInt8 fresh (len bipPath) 0 in
           let* d2 := write_segments d1 bipPath 0 in
           Buffer.writeUInt8 d2 networkType (1 + len bipPath * 4))
    with
    | Normal filled =>
        let apdu := mkApdu 0xe0 0x02 (if display then 0x01 else 0x00) 0x80
                      filled in
        let (d', r) := exchange d apdu in
        (match r with
         | Failure code => Throw (TransportError code)
         | Response response =>
             if option_eqb (Buffer.get response 0) 32
             then Normal {| publicKey :=
                              Buffer.toString_hex
                                (Buffer.slice response 1 33) |}
             else Throw (StatusCode 27904)
         end,
         {| device := d'; log := [(apdu, r)] |})
    | Throw e => (Throw e, {| device := d; log := [] |})
    | OutOfFuel => (OutOfFuel, {| device := d; log := [] |})
    end.
Proof.
  intros Hpath. unfold run, getAccount, sbind, lift, bipPath_of.
  rewrite Hpath.
  destruct (Buffer.alloc (1 + len bipPath * 4 + 1)) as [fresh| |];
    try reflexivity. cbn [Js.bind].
  destruct (Buffer.writeInt8 fresh (len bipPath) 0) as [d1| |];
    try reflexivity. cbn [Js.bind].
  destruct (write_segments d1 bipPath 0) as [d2| |];
    try reflexivity. cbn [Js.bind].
  destruct (Buffer.writeUInt8 d2 networkType (1 + len bipPath * 4))
    as [filled| |]; try reflexivity.
  unfold transport_send. cbn [device log app]. cbv zeta.
  change (mkApdu CLA_FIELD GET_ACCOUNT_INS_FIELD (if display then 1 else 0)
            curveMask filled)
    with (mkApdu 0xe0 0x02 (if display then 0x01 else 0x00) 0x80 filled).
  destruct (exchange d _) as [d' [code|response]]; [reflexivity|].
  destruct (Buffer.get response 0) as [publicKeyLength|]; [|reflexivity].
  cbn [option_eqb]. destruct (Z.eqb_spec publicKeyLength 32) as [->|_];
    reflexivity.
Qed.

End Accounts.

(** X9. The account query rejects, with a range error and before any
    exchange, a path of more than 127 segments, a path with a segment that
    is no unsigned 32-bit integer, and a network type that is no byte. *)
Theorem account_query_rejects {Device : Type}
    (exchange : Device -> Apdu -> Device * reply)
    (fromString : string -> option (list Z))
    path networkType display bipPath (d : Device) :
  fromString path = Some bipPath ->
  127 < len bipPath \/ ~ Forall u32 bipPath \/ ~ is_byte networkType ->
  run (getAccount Device exchange fromString path networkType display) d
  = (Throw RangeError, {| device := d; log := [] |}).
Proof.
  intros Hpath Hbad.
  rewrite (getAccount_steps exchange fromString _ _ _ bipPath d Hpath).
  destruct (account_data_shape bipPath networkType) as [[filled Hok]|Herr].
  - apply account_data_normal in Hok. destruct Hok as (HL & Hu & Hnet).
    destruct Hbad as [H|[H|H]]; [lia | contradiction | contradiction].
  - now rewrite Herr.
Qed.

Lemma account_query_rejects_witness :
  run (getAccount (list reply) scripted_exchange sample_fromString
         sample_path 256 false) [Response [7]]
  = (Throw RangeError, {| device := [Response [7]]; log := [] |}).
Proof.
  apply (account_query_rejects scripted_exchange sample_fromString
           sample_path 256 false sample_bipPath).
  - reflexivity.
  - right. right. unfold is_byte. lia.
Defined.

(** X10. The account query applies no chunk budget. A path of up to 127
    segments, each an unsigned 32-bit integer, goes out in one packet of
    2 + 4L data bytes, which is more than the 255 bytes of an APDU as soon
    as the path has more than 63 segments. *)
Theorem account_query_unbounded {Device : Type}
    (exchange : Device -> Apdu -> Device * reply)
    (fromString : string -> option (list Z))
    path networkType display bipPath (d : Device) :
  fromString path = Some bipPath ->
  len bipPath <= 127 -> Forall u32 bipPath -> is_byte networkType ->
  exists apdu r,
    log (snd (run (getAccount Device exchange fromString path networkType
                     display) d)) = [(apdu, r)]
    /\ data apdu = path_header bipPath ++ [networkType]
    /\ len (data apdu) = 2 + 4 * len bipPath
    /\ (63 < len bipPath -> 255 < len (data apdu)).
Proof.
  intros Hpath HL Hu Hnet.
  rewrite (getAccount_steps exchange fromString _ _ _ bipPath d Hpath).
  rewrite (account_data_wide bipPath networkType HL Hu Hnet). cbv zeta.
  destruct (exchange d _) as [d' r] eqn:Hex.
  do 2 eexists. cbn [snd log]. split; [reflexivity|].
  cbn [data]. split; [reflexivity|].
  rewrite len_app, len_path_header. change (len [networkType]) with 1.
  split; lia.
Qed.

Lemma account_query_unbounded_witness :
  exists apdu r,
    log (snd (run (getAccount (list reply) scripted_exchange
                     (fun _ => Some (repeat 0x80000000 64)) sample_path 104
                     false) [Response [7]])) = [(apdu, r)]
    /\ data apdu = path_header (repeat 0x80000000 64) ++ [104]
    /\ len (data apdu) = 2 + 4 * len (repeat 0x80000000 64)
    /\ (63 < len (repeat 0x80000000 64) -> 255 < len (data apdu)).
Proof.
  apply (account_query_unbounded scripted_exchange
           (fun _ => Some (repeat 0x80000000 64)) sample_path 104 false
           (repeat 0x80000000 64)).
  - reflexivity.
  - vm_compute. discriminate.
  - apply Forall_forall. intros v Hv. apply repeat_spec in Hv. subst v.
    split; vm_compute; discriminate.
  - split; vm_compute; discriminate.
Defined.

(** X12. The key handed back is the hex of the bytes that follow the length
    byte, whatever their number: decoding it gives the first 32 of them, and
    a response with fewer than 32 bytes after the length byte 32 is accepted
    with a key of two digits per byte received. *)
Theorem account_key_round_trip {Device : Type}
    (exchange : Device -> Apdu -> Device * reply)
    (fromString : string -> option (list Z))
    path networkType display bipPath (d d' : Device) rest :
  fromString path = Some bipPath ->
  len bipPath <= 63 -> Forall u32 bipPath -> is_byte networkType ->
  exchange d (account_apdu bipPath networkType display)
  = (d', Response (32 :: rest)) ->
  Forall is_byte rest ->
  exists key,
    fst (run (getAccount Device exchange fromString path networkType
                display) d)
    = Normal {| publicKey := key |}
    /\ Buffer.from_hex key = firstn 32 rest
    /\ length key = (2 * Nat.min 32 (length rest))%nat.
Proof.
  intros Hpath HL Hu Hnet Hex Hrest.
  rewrite (getAccount_run exchange fromString path networkType display
             bipPath d Hpath HL Hu Hnet).
  cbv zeta. rewrite Hex. cbn [fst].
  exists (Buffer.toString_hex (firstn 32 rest)). split; [reflexivity|].
  split.
  - apply from_hex_toString_hex. now apply Forall_firstn.
  - now rewrite length_toString_hex, length_firstn.
Qed.

Lemma account_key_round_trip_witness :
  exists key,
    fst (run (getAccount (list reply) scripted_exchange sample_fromString
                sample_path 104 false) [Response (32 :: counting 1 20)])
    = Normal {| publicKey := key |}
    /\ Buffer.from_hex key = firstn 32 (counting 1 20)
    /\ length key = (2 * Nat.min 32 (length (counting 1 20)))%nat.
Proof.
  apply (account_key_round_trip scripted_exchange sample_fromString
           sample_path 104 false sample_bipPath
           [Response (32 :: counting 1 20)] []).
  - reflexivity.
  - vm_compute. discriminate.
  - repeat constructor; vm_compute; discriminate.
  - split; vm_compute; discriminate.
  - reflexivity.
  - apply counting_bytes.
Defined.

(** X13. With nothing to sign, a transaction still comes back. When the
    signing bytes decode to the empty buffer, signTransaction makes no
    exchange and goes on with the empty response: the payload it hands to
    the hash and returns is the first 16 hex digits of the serialized
    transaction, no signature at all, the key, and the digits from 208 on. *)
Theorem sign_nothing_to_sign {Device : Type}
    (exchange : Device -> Apdu -> Device * reply)
    (fromString : string -> option (list Z))
    (hexToUint8 : str -> completion (list Z))
    (createTransactionHash : str -> list Z -> completion str)
    fuel path transaction networkGenerationHash key bipPath (d : Device) :
  fromString path = Some bipPath ->
  Buffer.from_hex (networkGenerationHash ++ skipn 216 (serialize transaction))
  = [] ->
  let unsigned :=
    firstn 16 (serialize transaction) ++ key
      ++ skipn 208 (serialize transaction) in
  run (signTransaction Device exchange fromString hexToUint8
         createTransactionHash fuel path transaction networkGenerationHash
         key) d
  = ((let* generationHashBytes := hexToUint8 networkGenerationHash in
      let* transactionHash :=
        createTransactionHash unsigned generationHashBytes in
      Normal {| payload := unsigned;
                hash := transactionHash;
                signerPublicKey := key;
                signed_type := tx_type transaction;
                signed_networkType := tx_networkType transaction |}),
     {| device := d; log := [] |}).
Proof.
  intros Hpath Hempty. cbv zeta.
  rewrite signTransaction_run, Hempty.
  rewrite (handler_steps exchange fromString), Hpath.
  replace (chunk_loop fuel bipPath [] 0 []) with (@Normal (list Apdu * Z) ([], 0))
    by (destruct fuel; reflexivity).
  reflexivity.
Qed.

Lemma sign_nothing_to_sign_witness :
  run (signTransaction (list reply) scripted_exchange sample_fromString
         sample_hexToUint8 sample_createTransactionHash 5 sample_path
         (mkTransaction (Buffer.toString_hex (counting 0 108)) 16724 152) []
         (Buffer.toString_hex sample_key)) [Response [7]]
  = ((let unsigned :=
        firstn 16 (Buffer.toString_hex (counting 0 108))
          ++ Buffer.toString_hex sample_key
          ++ skipn 208 (Buffer.toString_hex (counting 0 108)) in
      let* generationHashBytes := sample_hexToUint8 [] in
      let* transactionHash :=
        sample_createTransactionHash unsigned generationHashBytes in
      Normal {| payload := unsigned;
                hash := transactionHash;
                signerPublicKey := Buffer.toString_hex sample_key;
                signed_type := 16724;
                signed_networkType := 152 |}),
     {| device := [Response [7]]; log := [] |}).
Proof.
  apply (sign_nothing_to_sign scripted_exchange sample_fromString
           sample_hexToUint8 sample_createTransactionHash 5 sample_path
           (mkTransaction (Buffer.toString_hex (counting 0 108)) 16724 152) []
           (Buffer.toString_hex sample_key) sample_bipPath).
  - reflexivity.
  - vm_compute. reflexivity.
Defined.
